(** * SelfDB-mini admin console: table, column and row forms, list views

    A shallow embedding of the client-side logic of
    [frontend/src/pages/TableDetail.tsx], [frontend/src/pages/Tables.tsx],
    [frontend/src/pages/Users.tsx] and of the generic [DataTable] component,
    with the properties of name normalisation, row bodies, sorting and
    pagination proved about it.

    Conventions.
    - A JavaScript string is a [string]; its code units are the 8-bit range
      U+0000..U+00FF (ASCII and Latin-1).
    - An event handler is a function from the component state (and the event
      payload) to the new state and/or the list of effects it issues: alerts
      and HTTP requests, in program order, up to the point where the handler
      awaits the response.  State updates made by one handler (or one timer
      callback) are applied together, as React batches them.
    - A JavaScript object used as a dictionary is the association list of
      its own enumerable properties, with pairwise distinct keys, in
      insertion order (the order in which engines enumerate integer-like
      keys is not modelled; no statement relies on the place of an entry
      in an object).  [Object.entries], [JSON.stringify], spreading and
      rest patterns see these entries only.
    - A view function such as [handleScroll] is the handler of the render
      whose state it is given: the condition it tests and the request it
      issues are those of that render.  The [step] functions run every
      event in the render that the previous event left. *)

From Stdlib Require Import String Ascii List Bool Arith NArith ZArith Lia.
Import ListNotations.
Open Scope string_scope.

(** ** JavaScript primitives used by the pages *)
Module Js.

Definition code (c : ascii) : N := N_of_ascii c.

Definition between (lo hi : N) (c : ascii) : bool :=
  (lo <=? code c)%N && (code c <=? hi)%N.

(** [String.prototype.toLowerCase], one code unit at a time: [A-Z] and the
    Latin-1 capitals U+00C0..U+00DE (U+00D7, the multiplication sign, has
    no case) move up by 32. *)
Definition toLowerCase_char (c : ascii) : ascii :=
  if between 65 90 c then ascii_of_N (code c + 32)
  else if between 192 222 c && negb (code c =? 215)%N
       then ascii_of_N (code c + 32)
       else c.

Fixpoint toLowerCase (s : string) : string :=
  match s with
  | EmptyString => EmptyString
  | String c r => String (toLowerCase_char c) (toLowerCase r)
  end.

(** The character class [[a-z0-9_]]. *)
Definition is_lower (c : ascii) : bool := between 97 122 c.
Definition is_digit (c : ascii) : bool := between 48 57 c.
Definition is_name_char (c : ascii) : bool :=
  is_lower c || is_digit c || (code c =? 95)%N.

(** [s.replace(/[^a-z0-9_]/g, '')]. *)
Fixpoint replace_non_name_chars (s : string) : string :=
  match s with
  | EmptyString => EmptyString
  | String c r =>
      if is_name_char c then String c (replace_non_name_chars r)
      else replace_non_name_chars r
  end.

(** White space and line terminators of [String.prototype.trim]:
    TAB, LF, VT, FF, CR, SP and NBSP. *)
Definition isWhiteSpace (c : ascii) : bool :=
  between 9 13 c || (code c =? 32)%N || (code c =? 160)%N.

Fixpoint trimStart (s : string) : string :=
  match s with
  | EmptyString => EmptyString
  | String c r => if isWhiteSpace c then trimStart r else s
  end.

Fixpoint trimEnd (s : string) : string :=
  match s with
  | EmptyString => EmptyString
  | String c r =>
      match trimEnd r with
      | EmptyString => if isWhiteSpace c then EmptyString
                       else String c EmptyString
      | r' => String c r'
      end
  end.

Definition trim (s : string) : string := trimEnd (trimStart s).

(** [s.includes(t)]. *)
Fixpoint includes (s t : string) : bool :=
  prefix t s ||
  match s with
  | EmptyString => false
  | String _ r => includes r t
  end.

(** Truthiness of a string: only [''] is falsy. *)
Definition truthy (s : string) : bool := negb (s =? "").

(** Truthiness of [string | undefined]. *)
Definition truthy_opt (o : option string) : bool :=
  match o with
  | Some s => truthy s
  | None => false
  end.

(** [s || null] and [s || undefined] on strings. *)
Definition or_null (s : string) : option string :=
  if truthy s then Some s else None.

(** Values of type [any] held by rows and forms. *)
Inductive value : Type :=
| Undefined
| Null
| Bool (b : bool)
| Number (z : Z)
| Str (s : string)
| Json (text : string).

(** [v !== '' && v !== null && v !== undefined]. *)
Definition is_filled (v : value) : bool :=
  match v with
  | Undefined | Null => false
  | Str s => truthy s
  | _ => true
  end.

(** Truthiness of a value of type [any] (objects and arrays are truthy). *)
Definition truthy_value (v : value) : bool :=
  match v with
  | Undefined | Null => false
  | Bool b => b
  | Number z => negb (z =? 0)%Z
  | Str s => truthy s
  | Json _ => true
  end.

(** Objects as dictionaries. *)
Definition object (V : Type) : Type := list (string * V).

(** [Object.keys(o)]. *)
Definition keys {V} (o : object V) : list string := map fst o.

(** The value of the own property [k] of [o], if there is one. *)
Fixpoint get {V} (k : string) (o : object V) : option V :=
  match o with
  | [] => None
  | (k', v) :: r => if k' =? k then Some v else get k r
  end.

(** Whether [k] is an own key of [o]. *)
Definition has {V} (k : string) (o : object V) : bool :=
  existsb (fun e => fst e =? k) o.

(** Defining the own property [k] of [o], as a computed key of an object
    literal does ([{ ...o, [k]: v }]): an existing key keeps its place, a
    new key goes last. *)
Fixpoint define {V} (k : string) (v : V) (o : object V) : object V :=
  match o with
  | [] => [(k, v)]
  | (k', v') :: r =>
      if k' =? k then (k, v) :: r else (k', v') :: define k v r
  end.

(** The assignment [o[k] = v] on a plain object.  It defines the own
    property [k], except for the key [__proto__] when [o] has no own
    property of that name: the assignment then reaches the accessor of
    [Object.prototype], which may replace the prototype of [o] and stores
    no own property (the prototype is not part of the entries). *)
Definition set {V} (k : string) (v : V) (o : object V) : object V :=
  if (k =? "__proto__") && negb (has k o) then o else define k v o.

(** [const { k, ...rest } = o]: the copy of [o] without the key [k]. *)
Definition rest {V} (k : string) (o : object V) : object V :=
  filter (fun e => negb (fst e =? k)) o.

(** Assigning a list of entries in order, as a loop of [o[k] = v]. *)
Definition assign_all {V} (es : list (string * V)) (o : object V) : object V :=
  fold_left (fun acc e => set (fst e) (snd e) acc) es o.

End Js.

(** ** Helpers of [lib/utils] *)
Module Utils.

(** Modelled from the spec: [stripName] of [lib/utils] is imported by every
    page but is not among the sources.  The Identifier Validator of the spec
    "trims" a name, and each call site documents the helper the same way
    ("Validate and trim column name", "trim keys", the result bound to
    [trimmedKey]); lower-casing and the removal of characters are the work
    of the input handlers, the helper being applied to e-mail addresses and
    free-text descriptions as well. *)
Definition stripName (name : string) : string := Js.trim name.

(** Modelled from the spec: [stripObjectKeys] of [lib/utils] is not among
    the sources; its one call site describes it as "trim keys": the copy
    of the object in which every key went through [stripName]. *)
Definition stripObjectKeys {V} (obj : Js.object V) : Js.object V :=
  Js.assign_all (map (fun e => (stripName (fst e), snd e)) obj) [].

End Utils.

(** ** Requests of the generated client and effects of a handler *)
Module Api.

(** [ColumnDefinition] of [client/types.gen]. *)
Record ColumnDefinition : Type := {
  name : string;
  type : string;
  nullable : bool;
  default : option string
}.

Record ColumnUpdate : Type := {
  new_name : option string;
  upd_type : string;
  upd_nullable : bool
}.

Record SchemaEntry : Type := {
  entry_type : string;
  entry_nullable : bool
}.

Record TableCreate : Type := {
  create_name : string;
  create_description : option string;
  create_public : bool;
  create_schema : Js.object SchemaEntry
}.

Record TableUpdate : Type := {
  update_name : option string;
  update_description : option string;
  update_public : bool
}.

(** Query of the list endpoints ([/tables/], [/users/]). *)
Record ListQuery : Type := {
  skip : Z;
  limit : Z;
  search : option string;
  sort_by : string;
  sort_order : string
}.

(** Query of the row endpoint ([/tables/{id}/data]). *)
Record DataQuery : Type := {
  page : Z;
  page_size : Z;
  data_search : option string;
  data_sort_by : option string;
  data_sort_order : string
}.

Inductive request : Type :=
| readTablesTablesGet (query : ListQuery)
| readUsersUsersGet (query : ListQuery)
| createTableTablesPost (body : TableCreate)
| updateTableTablesTableIdPatch (table_id : string) (body : TableUpdate)
| getTableDataTablesTableIdDataGet (table_id : string) (query : DataQuery)
| addColumnTablesTableIdColumnsPost (table_id : string)
    (body : ColumnDefinition)
| updateColumnTablesTableIdColumnsColumnNamePatch
    (table_id column_name : string) (body : ColumnUpdate)
| insertRowTablesTableIdDataPost (table_id : string)
    (body : Js.object Js.value)
| updateRowTablesTableIdDataRowIdPatch (table_id : string)
    (row_id : Js.value) (body : Js.object Js.value).

Inductive effect : Type :=
| alert (message : string)
| send (r : request).

(** The requests among the effects of a handler. *)
Fixpoint requests (es : list effect) : list request :=
  match es with
  | [] => []
  | send r :: es' => r :: requests es'
  | alert _ :: es' => requests es'
  end.

End Api.

(** ** [pages/TableDetail.tsx]: column and row forms *)
Module TableDetail.
Import Api.

(** An element of the [columns] state. *)
Record Col : Type := {
  col_name : string;
  col_type : string;
  col_nullable : bool
}.

(** The value written by the name inputs of the Add Column and Edit Column
    modals: [e.target.value.toLowerCase().replace(/[^a-z0-9_]/g, '')]. *)
Definition name_input (value : string) : string :=
  Js.replace_non_name_chars (Js.toLowerCase value).

(** The initial (and reset) [newColumn]; [DEFAULT_COLUMN_TYPE] comes from
    [lib/constants], which is not among the sources. *)
Definition initial_newColumn (DEFAULT_COLUMN_TYPE : string)
    : ColumnDefinition :=
  {| name := "";
     type := DEFAULT_COLUMN_TYPE;
     nullable := true;
     default := None |}.

(** [onChange] of the Add Column name input. *)
Definition newColumn_onChange_name (newColumn : ColumnDefinition)
    (value : string) : ColumnDefinition :=
  {| name := name_input value;
     type := type newColumn;
     nullable := nullable newColumn;
     default := default newColumn |}.

Definition handleAddColumn (tableId : option string)
    (newColumn : ColumnDefinition) : list effect :=
  match tableId with
  | None => []
  | Some table_id =>
      if negb (Js.truthy table_id) then []
      else
        let columnName := Utils.stripName (name newColumn) in
        if negb (Js.truthy columnName)
        then [alert "Column name cannot be empty"]
        else [send (addColumnTablesTableIdColumnsPost table_id
                      {| name := columnName;
                         type := type newColumn;
                         nullable := nullable newColumn;
                         default := default newColumn |})]
  end.

(** The [editColumn] form state. *)
Record EditColumn : Type := {
  originalName : string;
  edit_new_name : string;
  edit_type : string;
  edit_nullable : bool
}.

Definition openEditColumnModal (col : Col) : EditColumn :=
  {| originalName := col_name col;
     edit_new_name := col_name col;
     edit_type := col_type col;
     edit_nullable := col_nullable col |}.

(** [onChange] of the Edit Column name input. *)
Definition editColumn_onChange_name (editColumn : EditColumn)
    (value : string) : EditColumn :=
  {| originalName := originalName editColumn;
     edit_new_name := name_input value;
     edit_type := edit_type editColumn;
     edit_nullable := edit_nullable editColumn |}.

Definition handleUpdateColumn (tableId : option string)
    (editColumn : EditColumn) : list effect :=
  match tableId with
  | None => []
  | Some table_id =>
      if negb (Js.truthy table_id) then []
      else
        let newColumnName := Utils.stripName (edit_new_name editColumn) in
        if negb (Js.truthy newColumnName)
        then [alert "Column name cannot be empty"]
        else [send (updateColumnTablesTableIdColumnsColumnNamePatch
                      table_id (originalName editColumn)
                      {| new_name :=
                           if newColumnName =? originalName editColumn
                           then None else Some newColumnName;
                         upd_type := edit_type editColumn;
                         upd_nullable := edit_nullable editColumn |})]
  end.

(** The test shared by [openAddRowModal] and the Add Row form:
    [col.name.toLowerCase() === 'id' &&
     col.type.toLowerCase().includes('uuid')]. *)
Definition is_uuid_id (col : Col) : bool :=
  (Js.toLowerCase (col_name col) =? "id") &&
  Js.includes (Js.toLowerCase (col_type col)) "uuid".

(** [openAddRowModal]: the initial [newRowData]. *)
Definition openAddRowModal (columns : list Col) : Js.object Js.value :=
  fold_left
    (fun initialData col =>
       if is_uuid_id col then initialData
       else Js.set (col_name col) (Js.Str "") initialData)
    columns [].

(** The columns for which the Add Row form renders an input. *)
Definition addRow_inputs (columns : list Col) : list Col :=
  filter (fun col => negb (is_uuid_id col)) columns.

(** [onChange] of the input of column [col] in the Add Row form. *)
Definition newRowData_onChange (newRowData : Js.object Js.value)
    (col : Col) (value : string) : Js.object Js.value :=
  Js.define (col_name col) (Js.Str value) newRowData.

(** A session of the Add Row form: [openAddRowModal], then the [onChange]
    events of rendered inputs, each with the column and the typed value. *)
Definition addRow_session (columns : list Col)
    (typed : list (Col * string)) : Js.object Js.value :=
  fold_left (fun newRowData e => newRowData_onChange newRowData (fst e) (snd e))
    typed (openAddRowModal columns).

(** The [cleanData] built by [handleAddRow]. *)
Definition cleanData (newRowData : Js.object Js.value)
    : Js.object Js.value :=
  fold_left
    (fun clean e =>
       let trimmedKey := Utils.stripName (fst e) in
       if Js.is_filled (snd e) && Js.truthy trimmedKey
       then Js.set trimmedKey (snd e) clean
       else clean)
    newRowData [].

Definition handleAddRow (tableId : option string)
    (newRowData : Js.object Js.value) : list effect :=
  match tableId with
  | None => []
  | Some table_id =>
      if negb (Js.truthy table_id) then []
      else [send (insertRowTablesTableIdDataPost table_id
                    (cleanData newRowData))]
  end.

(** The [editRowData] form state. *)
Record EditRow : Type := {
  row_id : Js.value;
  row_data : Js.object Js.value
}.

Definition openEditRowModal (row : Js.object Js.value) : EditRow :=
  {| row_id := match Js.get "id" row with
               | Some v => v
               | None => Js.Undefined
               end;
     row_data := row |}.

(** [onChange] of the input of column [col] in the Edit Row form. *)
Definition editRowData_onChange (editRowData : EditRow) (col : Col)
    (value : string) : EditRow :=
  {| row_id := row_id editRowData;
     row_data := Js.define (col_name col) (Js.Str value)
                   (row_data editRowData) |}.

Definition handleUpdateRow (tableId : option string)
    (editRowData : EditRow) : list effect :=
  match tableId with
  | None => []
  | Some table_id =>
      if negb (Js.truthy table_id)
         || negb (Js.truthy_value (row_id editRowData))
      then []
      else
        let rawUpdateData := Js.rest "id" (row_data editRowData) in
        let updateData := Utils.stripObjectKeys rawUpdateData in
        [send (updateRowTablesTableIdDataRowIdPatch table_id
                 (row_id editRowData) updateData)]
  end.

(** *** The row view: search, sort and page state *)

Definition pageSize : Z := 50.

Record View : Type := {
  table_loaded : bool;
  page : Z;
  totalRows : Z;
  searchQuery : string;
  sortBy : option string;
  sortOrder : string
}.

Definition initial : View :=
  {| table_loaded := false;
     page := 1;
     totalRows := 0;
     searchQuery := "";
     sortBy := None;
     sortOrder := "desc" |}.

Definition setTable (s : View) : View :=
  {| table_loaded := true; page := page s; totalRows := totalRows s;
     searchQuery := searchQuery s; sortBy := sortBy s;
     sortOrder := sortOrder s |}.

Definition setPage (p : Z) (s : View) : View :=
  {| table_loaded := table_loaded s; page := p; totalRows := totalRows s;
     searchQuery := searchQuery s; sortBy := sortBy s;
     sortOrder := sortOrder s |}.

Definition setTotalRows (n : Z) (s : View) : View :=
  {| table_loaded := table_loaded s; page := page s; totalRows := n;
     searchQuery := searchQuery s; sortBy := sortBy s;
     sortOrder := sortOrder s |}.

Definition setSearchQuery (q : string) (s : View) : View :=
  {| table_loaded := table_loaded s; page := page s;
     totalRows := totalRows s; searchQuery := q; sortBy := sortBy s;
     sortOrder := sortOrder s |}.

Definition setSortBy (f : option string) (s : View) : View :=
  {| table_loaded := table_loaded s; page := page s;
     totalRows := totalRows s; searchQuery := searchQuery s; sortBy := f;
     sortOrder := sortOrder s |}.

Definition setSortOrder (o : string) (s : View) : View :=
  {| table_loaded := table_loaded s; page := page s;
     totalRows := totalRows s; searchQuery := searchQuery s;
     sortBy := sortBy s; sortOrder := o |}.

(** The request of [fetchData], built from the state of the render. *)
Definition fetchData (token tableId : option string) (s : View)
    : list effect :=
  match token, tableId with
  | Some tok, Some table_id =>
      if negb (Js.truthy tok) || negb (Js.truthy table_id) then []
      else [send (getTableDataTablesTableIdDataGet table_id
                    {| Api.page := page s;
                       page_size := pageSize;
                       data_search := Js.or_null (searchQuery s);
                       data_sort_by :=
                         match sortBy s with
                         | Some f => Js.or_null f
                         | None => None
                         end;
                       data_sort_order := sortOrder s |})]
  | _, _ => []
  end.

(** What happens to the view: [fetchTable] or [fetchData] resolves, the
    debounce timer of [handleSearchChange] fires, a control is used, the
    grid is scrolled. *)
Inductive event : Type :=
| TableLoaded
| DataLoaded (total : Z)
| SearchDebounced (value : string)
| ClearSearch
| SortBySelected (value : string)
| ToggleSortOrder
| PreviousPage
| NextPage
| Scroll (nearBottom : bool).

(** The events that change the search query, the sort field or the sort
    order. *)
Definition changes_filter (e : event) : bool :=
  match e with
  | SearchDebounced _ | ClearSearch | SortBySelected _ | ToggleSortOrder =>
      true
  | _ => false
  end.

(** The state updates of each handler. *)
Definition handle (s : View) (e : event) : View :=
  match e with
  | TableLoaded => setTable s
  | DataLoaded total => setTotalRows total s
  | SearchDebounced value => setPage 1 (setSearchQuery value s)
  | ClearSearch => setPage 1 (setSearchQuery "" s)
  | SortBySelected value => setPage 1 (setSortBy (Js.or_null value) s)
  | ToggleSortOrder =>
      setPage 1
        (setSortOrder (if sortOrder s =? "desc" then "asc" else "desc") s)
  | PreviousPage =>
      if (page s =? 1)%Z then s else setPage (Z.max 1 (page s - 1)) s
  | NextPage =>
      if (totalRows s <=? page s * pageSize)%Z then s
      else setPage (page s + 1) s
  | Scroll nearBottom =>
      if nearBottom && (page s * pageSize <? totalRows s)%Z
      then setPage (page s + 1) s
      else s
  end.

Definition option_eqb (a b : option string) : bool :=
  match a, b with
  | Some x, Some y => x =? y
  | None, None => true
  | _, _ => false
  end.

(** Whether a dependency of [fetchData] differs between two renders
    ([token], [tableId] and [pageSize] do not change). *)
Definition deps_changed (s s' : View) : bool :=
  negb ((page s =? page s')%Z
        && (searchQuery s =? searchQuery s')
        && option_eqb (sortBy s) (sortBy s')
        && (sortOrder s =? sortOrder s')).

(** One event: the handler, then the effect
    [useEffect(() => { if (table) fetchData(); }, [table, fetchData])];
    every load of the table yields a new [table] object. *)
Definition step (token tableId : option string) (s : View) (e : event)
    : View * list effect :=
  let s' := handle s e in
  let changed :=
    match e with
    | TableLoaded => true
    | _ => deps_changed s s'
    end in
  (s', if changed && table_loaded s'
       then fetchData token tableId s' else []).

(** *** The columns read from the table *)

(** An entry of [response.data.schema]: [type] and [nullable] may be
    missing. *)
Record SchemaDef : Type := {
  def_type : option string;
  def_nullable : option bool
}.

(** The [cols] that [fetchTable] stores:
    [{ name, type: def?.type || 'VARCHAR(255)',
       nullable: def?.nullable ?? true }] for each entry of the schema. *)
Definition columns_of_schema (schema : Js.object (option SchemaDef))
    : list Col :=
  map
    (fun e =>
       {| col_name := fst e;
          col_type :=
            match snd e with
            | Some def =>
                match def_type def with
                | Some t => if Js.truthy t then t else "VARCHAR(255)"
                | None => "VARCHAR(255)"
                end
            | None => "VARCHAR(255)"
            end;
          col_nullable :=
            match snd e with
            | Some def =>
                match def_nullable def with
                | Some b => b
                | None => true
                end
            | None => true
            end |})
    schema.

(** The states of the row view that a sequence of events leads to. *)
Inductive reachable (token tableId : option string) : View -> Prop :=
| reachable_initial : reachable token tableId initial
| reachable_step : forall s e,
    reachable token tableId s ->
    reachable token tableId (fst (step token tableId s e)).

End TableDetail.

(** ** [pages/Tables.tsx]: the tables list and its forms *)
Module Tables.
Import Api.

Definition PAGE_SIZE : Z := 50.

(** [TableRead] of [client/types.gen], as far as the page reads it. *)
Record TableRead : Type := {
  table_id : string;
  table_name : string;
  table_description : option string;
  table_public : bool;
  table_schema : Js.object SchemaEntry
}.

(** *** The list view *)

Record View : Type := {
  tables : list TableRead;
  loading : bool;
  hasMore : bool;
  page : Z;
  isLoadingMore : bool;
  searchQuery : string;
  sortBy : string;
  sortOrder : string
}.

Definition initial : View :=
  {| tables := []; loading := true; hasMore := true; page := 1;
     isLoadingMore := false; searchQuery := ""; sortBy := "created_at";
     sortOrder := "desc" |}.

Definition setTables (l : list TableRead) (s : View) : View :=
  {| tables := l; loading := loading s; hasMore := hasMore s;
     page := page s; isLoadingMore := isLoadingMore s;
     searchQuery := searchQuery s; sortBy := sortBy s;
     sortOrder := sortOrder s |}.

Definition setLoading (b : bool) (s : View) : View :=
  {| tables := tables s; loading := b; hasMore := hasMore s;
     page := page s; isLoadingMore := isLoadingMore s;
     searchQuery := searchQuery s; sortBy := sortBy s;
     sortOrder := sortOrder s |}.

Definition setHasMore (b : bool) (s : View) : View :=
  {| tables := tables s; loading := loading s; hasMore := b;
     page := page s; isLoadingMore := isLoadingMore s;
     searchQuery := searchQuery s; sortBy := sortBy s;
     sortOrder := sortOrder s |}.

Definition setPage (p : Z) (s : View) : View :=
  {| tables := tables s; loading := loading s; hasMore := hasMore s;
     page := p; isLoadingMore := isLoadingMore s;
     searchQuery := searchQuery s; sortBy := sortBy s;
     sortOrder := sortOrder s |}.

Definition setIsLoadingMore (b : bool) (s : View) : View :=
  {| tables := tables s; loading := loading s; hasMore := hasMore s;
     page := page s; isLoadingMore := b;
     searchQuery := searchQuery s; sortBy := sortBy s;
     sortOrder := sortOrder s |}.

Definition setSearchQuery (q : string) (s : View) : View :=
  {| tables := tables s; loading := loading s; hasMore := hasMore s;
     page := page s; isLoadingMore := isLoadingMore s;
     searchQuery := q; sortBy := sortBy s; sortOrder := sortOrder s |}.

Definition setSortBy (f : string) (s : View) : View :=
  {| tables := tables s; loading := loading s; hasMore := hasMore s;
     page := page s; isLoadingMore := isLoadingMore s;
     searchQuery := searchQuery s; sortBy := f; sortOrder := sortOrder s |}.

Definition setSortOrder (o : string) (s : View) : View :=
  {| tables := tables s; loading := loading s; hasMore := hasMore s;
     page := page s; isLoadingMore := isLoadingMore s;
     searchQuery := searchQuery s; sortBy := sortBy s; sortOrder := o |}.

(** The query [fetchTables] sends for page [pageNum]. *)
Definition list_query (s : View) (pageNum : Z) : ListQuery :=
  let skip := ((pageNum - 1) * PAGE_SIZE)%Z in
  {| Api.skip := skip;
     limit := PAGE_SIZE;
     search := Js.or_null (searchQuery s);
     sort_by := sortBy s;
     sort_order := sortOrder s |}.

(** [fetchTables(pageNum, append)] up to the [await]; [append] is read
    after it only. *)
Definition fetchTables (token : option string) (s : View) (pageNum : Z)
    : View * list effect :=
  if negb (Js.truthy_opt token) then (setLoading false s, [])
  else
    let s1 := if (pageNum =? 1)%Z then setLoading true s
              else setIsLoadingMore true s in
    (s1, [send (readTablesTablesGet (list_query s pageNum))]).

(** What the awaited call of the client resolves to. *)
Inductive response : Type :=
| Failed
| NoData
| Data (data : list TableRead).

(** [fetchTables] after the [await], for the call made with [append]. *)
Definition fetchTables_resolved (append : bool) (r : response) (s : View)
    : View :=
  let s1 :=
    match r with
    | Data data =>
        setHasMore (Z.of_nat (length data) =? PAGE_SIZE)%Z
          (setTables (if append then tables s ++ data else data) s)
    | NoData | Failed => s
    end in
  setIsLoadingMore false (setLoading false s1).

(** The [option] values of the sort [Select]. *)
Definition sort_options : list string := ["created_at"; "updated_at"; "name"].

(** What happens to the page: [fetchTables()] is called (on mount, and after a
    successful change of the list), a pending call resolves, the debounce
    timer of [handleSearchChange] fires, a control is used, the grid is
    scrolled. *)
Inductive event : Type :=
| Mount
| Resolved (append : bool) (r : response)
| SearchDebounced (value : string)
| ClearSearch
| SortBySelected (value : string)
| ToggleSortOrder
| Scroll (nearBottom : bool)
| Refresh.

(** The events the page can receive: the sort [Select] only reports the
    value of one of its options. *)
Definition possible (e : event) : Prop :=
  match e with
  | SortBySelected value => In value sort_options
  | _ => True
  end.

(** The events that change the search query, the sort field or the sort
    order. *)
Definition changes_filter (e : event) : bool :=
  match e with
  | SearchDebounced _ | ClearSearch | SortBySelected _ | ToggleSortOrder =>
      true
  | _ => false
  end.

(** Whether a dependency of the [fetchTables] callback differs between two
    renders (the token does not change). *)
Definition deps_changed (s s' : View) : bool :=
  negb ((searchQuery s =? searchQuery s')
        && (sortBy s =? sortBy s')
        && (sortOrder s =? sortOrder s')).

(** [useEffect(() => { fetchTables(); }, [fetchTables])] after a render. *)
Definition refetch (token : option string) (s s' : View)
    : View * list effect :=
  if deps_changed s s' then fetchTables token s' 1 else (s', []).

(** [handleScroll] of the render whose state is [s]: [hasMore],
    [isLoadingMore], [page] and the filter of the request are the values
    captured by that render; [nearBottom] is [scrollBottom < 100].  The
    state returned is the one after the update [setPage(prev => prev + 1)]
    when no other update was queued since that render. *)
Definition handleScroll (token : option string) (s : View)
    (nearBottom : bool) : View * list effect :=
  if nearBottom && hasMore s && negb (isLoadingMore s)
  then fetchTables token (setPage (page s + 1) s) (page s + 1)
  else (s, []).

Definition step (token : option string) (s : View) (e : event)
    : View * list effect :=
  match e with
  | Mount => fetchTables token s 1
  | Resolved append r => (fetchTables_resolved append r s, [])
  | SearchDebounced value =>
      refetch token s (setPage 1 (setSearchQuery value s))
  | ClearSearch => refetch token s (setPage 1 (setSearchQuery "" s))
  | SortBySelected value => refetch token s (setPage 1 (setSortBy value s))
  | ToggleSortOrder =>
      refetch token s
        (setPage 1
           (setSortOrder (if sortOrder s =? "desc" then "asc" else "desc") s))
  | Scroll nearBottom => handleScroll token s nearBottom
  | Refresh => fetchTables token (setPage 1 s) 1
  end.

(** A run of the page from its initial state: the final state and all the
    effects issued, in order. *)
Fixpoint run (token : option string) (s : View) (es : list event)
    : View * list effect :=
  match es with
  | [] => (s, [])
  | e :: es' =>
      let (s1, out1) := step token s e in
      let (s2, out2) := run token s1 es' in
      (s2, (out1 ++ out2)%list)
  end.

Inductive reachable (token : option string) : View -> Prop :=
| reachable_initial : reachable token initial
| reachable_step : forall s e,
    reachable token s -> possible e ->
    reachable token (fst (step token s e)).

(** The sort state holds offered values only. *)
Definition sort_ok (s : View) : Prop :=
  In (sortBy s) sort_options /\ In (sortOrder s) ["asc"; "desc"].

(** *** The Create Table form *)

Record ColumnForm : Type := {
  column_name : string;
  column_type : string;
  column_nullable : bool
}.

Record CreateForm : Type := {
  form_name : string;
  form_description : string;
  form_public : bool;
  form_columns : list ColumnForm
}.

Definition initial_createForm : CreateForm :=
  {| form_name := "";
     form_description := "";
     form_public := false;
     form_columns :=
       [{| column_name := "id"; column_type := "uuid";
           column_nullable := false |}] |}.

(** [onChange] of the Create Table name input: the raw value. *)
Definition createForm_onChange_name (createForm : CreateForm)
    (value : string) : CreateForm :=
  {| form_name := value;
     form_description := form_description createForm;
     form_public := form_public createForm;
     form_columns := form_columns createForm |}.

Definition handleAddColumn (createForm : CreateForm) : CreateForm :=
  {| form_name := form_name createForm;
     form_description := form_description createForm;
     form_public := form_public createForm;
     form_columns :=
       (form_columns createForm ++
        [{| column_name := ""; column_type := "text";
            column_nullable := true |}])%list |}.

(** [newColumns[index] = { ...newColumns[index], name: value }], for the
    index of a rendered row. *)
Fixpoint set_column_name (index : nat) (value : string)
    (columns : list ColumnForm) : list ColumnForm :=
  match columns, index with
  | [], _ => []
  | col :: r, O =>
      {| column_name := value; column_type := column_type col;
         column_nullable := column_nullable col |} :: r
  | col :: r, S i => col :: set_column_name i value r
  end.

(** [handleColumnChange(index, 'name', value)]: the raw value. *)
Definition handleColumnChange_name (createForm : CreateForm) (index : nat)
    (value : string) : CreateForm :=
  {| form_name := form_name createForm;
     form_description := form_description createForm;
     form_public := form_public createForm;
     form_columns := set_column_name index value (form_columns createForm) |}.

(** The loop of [handleCreateTable] over [createForm.columns]; [None] when
    it returns early on an empty column name. *)
Fixpoint build_schema (columns : list ColumnForm)
    (schema : Js.object SchemaEntry) : option (Js.object SchemaEntry) :=
  match columns with
  | [] => Some schema
  | col :: r =>
      let colName := Utils.stripName (column_name col) in
      if negb (Js.truthy colName) then None
      else build_schema r
             (Js.set colName
                {| entry_type := column_type col;
                   entry_nullable := column_nullable col |} schema)
  end.

Definition handleCreateTable (createForm : CreateForm) : list effect :=
  let tableName := Utils.stripName (form_name createForm) in
  if negb (Js.truthy tableName) then [alert "Table name cannot be empty"]
  else
    match build_schema (form_columns createForm) [] with
    | None => [alert "Column names cannot be empty"]
    | Some schema =>
        [send (createTableTablesPost
                 {| create_name := tableName;
                    create_description :=
                      Js.or_null
                        (Utils.stripName (form_description createForm));
                    create_public := form_public createForm;
                    create_schema := schema |})]
    end.

(** *** The Edit Table form *)

Record EditForm : Type := {
  edit_name : string;
  edit_description : string;
  edit_public : bool
}.

Definition openEditModal (table : TableRead) : EditForm :=
  {| edit_name := table_name table;
     edit_description :=
       match table_description table with
       | Some d => d
       | None => ""
       end;
     edit_public := table_public table |}.

(** [onChange] of the Edit Table name input:
    [e.target.value.toLowerCase().replace(/[^a-z0-9_]/g, '')]. *)
Definition editForm_onChange_name (editForm : EditForm) (value : string)
    : EditForm :=
  {| edit_name := Js.replace_non_name_chars (Js.toLowerCase value);
     edit_description := edit_description editForm;
     edit_public := edit_public editForm |}.

Definition handleEditTable (selectedTable : option TableRead)
    (editForm : EditForm) : list effect :=
  match selectedTable with
  | None => []
  | Some table =>
      let tableName := Utils.stripName (edit_name editForm) in
      if negb (Js.truthy tableName) then [alert "Table name cannot be empty"]
      else [send (updateTableTablesTableIdPatch (table_id table)
                    {| update_name :=
                         if tableName =? table_name table then None
                         else Some tableName;
                       update_description :=
                         Js.or_null
                           (Utils.stripName (edit_description editForm));
                       update_public := edit_public editForm |})]
  end.

(** *** The quick data view *)

(** [handleAddRow] of the View Table Data modal: one [''] per schema key. *)
Definition handleAddRow (selectedTable : option TableRead)
    (tableSchema : Js.object SchemaEntry) : list effect :=
  match selectedTable with
  | None => []
  | Some table =>
      let newRow :=
        fold_left
          (fun newRow key => Js.set (Utils.stripName key) (Js.Str "") newRow)
          (Js.keys tableSchema) [] in
      [send (insertRowTablesTableIdDataPost (table_id table) newRow)]
  end.

(** *** More of the Create Table form *)

(** [l.filter((x, i) => p(x, i))], the index counted from [i]. *)
Fixpoint filter_with_index {A : Type} (p : A -> nat -> bool) (i : nat)
    (l : list A) : list A :=
  match l with
  | [] => []
  | x :: r =>
      if p x i then x :: filter_with_index p (S i) r
      else filter_with_index p (S i) r
  end.

(** [handleRemoveColumn(index)]:
    [createForm.columns.filter((_, i) => i !== index)]. *)
Definition handleRemoveColumn (createForm : CreateForm) (index : nat)
    : CreateForm :=
  {| form_name := form_name createForm;
     form_description := form_description createForm;
     form_public := form_public createForm;
     form_columns :=
       filter_with_index (fun _ i => negb (i =? index)%nat) 0
         (form_columns createForm) |}.

(** The [field] and [value] of a call of [handleColumnChange]. *)
Inductive column_field : Type :=
| field_name (value : string)
| field_type (value : string)
| field_nullable (value : bool).

(** [{ ...col, [field]: value }]. *)
Definition with_field (col : ColumnForm) (f : column_field) : ColumnForm :=
  match f with
  | field_name value =>
      {| column_name := value; column_type := column_type col;
         column_nullable := column_nullable col |}
  | field_type value =>
      {| column_name := column_name col; column_type := value;
         column_nullable := column_nullable col |}
  | field_nullable value =>
      {| column_name := column_name col; column_type := column_type col;
         column_nullable := value |}
  end.

(** [newColumns[index] = { ...newColumns[index], [field]: value }], for the
    index of a rendered row. *)
Fixpoint set_column (index : nat) (f : column_field)
    (columns : list ColumnForm) : list ColumnForm :=
  match columns, index with
  | [], _ => []
  | col :: r, O => with_field col f :: r
  | col :: r, S i => col :: set_column i f r
  end.

Definition handleColumnChange (createForm : CreateForm) (index : nat)
    (f : column_field) : CreateForm :=
  {| form_name := form_name createForm;
     form_description := form_description createForm;
     form_public := form_public createForm;
     form_columns := set_column index f (form_columns createForm) |}.

(** What the user does in the Create Table modal. *)
Inductive form_event : Type :=
| NameTyped (value : string)
| DescriptionTyped (value : string)
| PublicChecked (value : bool)
| ColumnAdded
| ColumnRemoved (index : nat)
| ColumnChanged (index : nat) (f : column_field).

(** A row offers its controls for its own index; the remove button is
    rendered when [createForm.columns.length > 1]. *)
Definition form_possible (createForm : CreateForm) (e : form_event) : Prop :=
  match e with
  | ColumnRemoved index =>
      (1 < length (form_columns createForm))%nat
      /\ (index < length (form_columns createForm))%nat
  | ColumnChanged index _ => (index < length (form_columns createForm))%nat
  | _ => True
  end.

Definition form_step (createForm : CreateForm) (e : form_event)
    : CreateForm :=
  match e with
  | NameTyped value => createForm_onChange_name createForm value
  | DescriptionTyped value =>
      {| form_name := form_name createForm;
         form_description := value;
         form_public := form_public createForm;
         form_columns := form_columns createForm |}
  | PublicChecked value =>
      {| form_name := form_name createForm;
         form_description := form_description createForm;
         form_public := value;
         form_columns := form_columns createForm |}
  | ColumnAdded => handleAddColumn createForm
  | ColumnRemoved index => handleRemoveColumn createForm index
  | ColumnChanged index f => handleColumnChange createForm index f
  end.

(** The forms a session of the modal leads to, from the initial (and
    reset) form. *)
Inductive form_reachable : CreateForm -> Prop :=
| form_reachable_initial : form_reachable initial_createForm
| form_reachable_step : forall createForm e,
    form_reachable createForm -> form_possible createForm e ->
    form_reachable (form_step createForm e).

End Tables.

(** ** [pages/Users.tsx]: the users list *)
Module Users.
Import Api.

Definition PAGE_SIZE : Z := 50.

(** [UserRead] of [client/types.gen], as far as the list reads it. *)
Record UserRead : Type := {
  user_id : string;
  user_email : string
}.

Record View : Type := {
  users : list UserRead;
  loading : bool;
  hasMore : bool;
  page : Z;
  isLoadingMore : bool;
  searchQuery : string;
  sortBy : string;
  sortOrder : string
}.

Definition initial : View :=
  {| users := []; loading := true; hasMore := true; page := 1;
     isLoadingMore := false; searchQuery := ""; sortBy := "created_at";
     sortOrder := "desc" |}.

Definition setUsers (l : list UserRead) (s : View) : View :=
  {| users := l; loading := loading s; hasMore := hasMore s;
     page := page s; isLoadingMore := isLoadingMore s;
     searchQuery := searchQuery s; sortBy := sortBy s;
     sortOrder := sortOrder s |}.

Definition setLoading (b : bool) (s : View) : View :=
  {| users := users s; loading := b; hasMore := hasMore s;
     page := page s; isLoadingMore := isLoadingMore s;
     searchQuery := searchQuery s; sortBy := sortBy s;
     sortOrder := sortOrder s |}.

Definition setHasMore (b : bool) (s : View) : View :=
  {| users := users s; loading := loading s; hasMore := b;
     page := page s; isLoadingMore := isLoadingMore s;
     searchQuery := searchQuery s; sortBy := sortBy s;
     sortOrder := sortOrder s |}.

Definition setPage (p : Z) (s : View) : View :=
  {| users := users s; loading := loading s; hasMore := hasMore s;
     page := p; isLoadingMore := isLoadingMore s;
     searchQuery := searchQuery s; sortBy := sortBy s;
     sortOrder := sortOrder s |}.

Definition setIsLoadingMore (b : bool) (s : View) : View :=
  {| users := users s; loading := loading s; hasMore := hasMore s;
     page := page s; isLoadingMore := b;
     searchQuery := searchQuery s; sortBy := sortBy s;
     sortOrder := sortOrder s |}.

Definition setSearchQuery (q : string) (s : View) : View :=
  {| users := users s; loading := loading s; hasMore := hasMore s;
     page := page s; isLoadingMore := isLoadingMore s;
     searchQuery := q; sortBy := sortBy s; sortOrder := sortOrder s |}.

Definition setSortBy (f : string) (s : View) : View :=
  {| users := users s; loading := loading s; hasMore := hasMore s;
     page := page s; isLoadingMore := isLoadingMore s;
     searchQuery := searchQuery s; sortBy := f; sortOrder := sortOrder s |}.

Definition setSortOrder (o : string) (s : View) : View :=
  {| users := users s; loading := loading s; hasMore := hasMore s;
     page := page s; isLoadingMore := isLoadingMore s;
     searchQuery := searchQuery s; sortBy := sortBy s; sortOrder := o |}.

(** The query [fetchUsers] sends for page [pageNum]. *)
Definition list_query (s : View) (pageNum : Z) : ListQuery :=
  let skip := ((pageNum - 1) * PAGE_SIZE)%Z in
  {| Api.skip := skip;
     limit := PAGE_SIZE;
     search := Js.or_null (searchQuery s);
     sort_by := sortBy s;
     sort_order := sortOrder s |}.

(** [fetchUsers(pageNum, append)] up to the [await]; [append] is read
    after it only. *)
Definition fetchUsers (token : option string) (s : View) (pageNum : Z)
    : View * list effect :=
  if negb (Js.truthy_opt token) then (s, [])
  else
    let s1 := if (pageNum =? 1)%Z then setLoading true s
              else setIsLoadingMore true s in
    (s1, [send (readUsersUsersGet (list_query s pageNum))]).

(** What the awaited call of the client resolves to. *)
Inductive response : Type :=
| Failed
| NoData
| Data (data : list UserRead).

(** [fetchUsers] after the [await], for the call made with [append]. *)
Definition fetchUsers_resolved (append : bool) (r : response) (s : View)
    : View :=
  let s1 :=
    match r with
    | Data data =>
        setHasMore (Z.of_nat (length data) =? PAGE_SIZE)%Z
          (setUsers (if append then users s ++ data else data) s)
    | NoData | Failed => s
    end in
  setIsLoadingMore false (setLoading false s1).

(** The [option] values of the sort [Select]. *)
Definition sort_options : list string :=
  ["created_at"; "email"; "first_name"; "last_name"].

(** What happens to the page: [fetchUsers()] is called (on mount, and after a
    successful change of the list), a pending call resolves, the debounce
    timer of [handleSearchChange] fires, a control is used, the grid is
    scrolled. *)
Inductive event : Type :=
| Mount
| Resolved (append : bool) (r : response)
| SearchDebounced (value : string)
| ClearSearch
| SortBySelected (value : string)
| ToggleSortOrder
| Scroll (nearBottom : bool)
| Refresh.

(** The events the page can receive: the sort [Select] only reports the
    value of one of its options. *)
Definition possible (e : event) : Prop :=
  match e with
  | SortBySelected value => In value sort_options
  | _ => True
  end.

(** The events that change the search query, the sort field or the sort
    order. *)
Definition changes_filter (e : event) : bool :=
  match e with
  | SearchDebounced _ | ClearSearch | SortBySelected _ | ToggleSortOrder =>
      true
  | _ => false
  end.

(** Whether a dependency of the [fetchUsers] callback differs between two
    renders (the token does not change). *)
Definition deps_changed (s s' : View) : bool :=
  negb ((searchQuery s =? searchQuery s')
        && (sortBy s =? sortBy s')
        && (sortOrder s =? sortOrder s')).

(** [useEffect(() => { fetchUsers(); }, [fetchUsers])] after a render. *)
Definition refetch (token : option string) (s s' : View)
    : View * list effect :=
  if deps_changed s s' then fetchUsers token s' 1 else (s', []).

(** [handleScroll] of the render whose state is [s], as in the tables
    list. *)
Definition handleScroll (token : option string) (s : View)
    (nearBottom : bool) : View * list effect :=
  if nearBottom && hasMore s && negb (isLoadingMore s)
  then fetchUsers token (setPage (page s + 1) s) (page s + 1)
  else (s, []).

Definition step (token : option string) (s : View) (e : event)
    : View * list effect :=
  match e with
  | Mount => fetchUsers token s 1
  | Resolved append r => (fetchUsers_resolved append r s, [])
  | SearchDebounced value =>
      refetch token s (setPage 1 (setSearchQuery value s))
  | ClearSearch => refetch token s (setPage 1 (setSearchQuery "" s))
  | SortBySelected value => refetch token s (setPage 1 (setSortBy value s))
  | ToggleSortOrder =>
      refetch token s
        (setPage 1
           (setSortOrder (if sortOrder s =? "desc" then "asc" else "desc") s))
  | Scroll nearBottom => handleScroll token s nearBottom
  | Refresh => fetchUsers token (setPage 1 s) 1
  end.

(** A run of the page from its initial state: the final state and all the
    effects issued, in order. *)
Fixpoint run (token : option string) (s : View) (es : list event)
    : View * list effect :=
  match es with
  | [] => (s, [])
  | e :: es' =>
      let (s1, out1) := step token s e in
      let (s2, out2) := run token s1 es' in
      (s2, (out1 ++ out2)%list)
  end.

Inductive reachable (token : option string) : View -> Prop :=
| reachable_initial : reachable token initial
| reachable_step : forall s e,
    reachable token s -> possible e ->
    reachable token (fst (step token s e)).

(** The sort state holds offered values only. *)
Definition sort_ok (s : View) : Prop :=
  In (sortBy s) sort_options /\ In (sortOrder s) ["asc"; "desc"].

(** *** The Add User and Edit User forms *)

Record CreateForm : Type := {
  new_email : string;
  new_firstName : string;
  new_lastName : string;
  new_password : string
}.

Record EditForm : Type := {
  edit_email : string;
  edit_firstName : string;
  edit_lastName : string;
  edit_role : string;
  edit_isActive : bool;
  edit_password : string
}.

Record UserCreate : Type := {
  body_email : string;
  body_firstName : string;
  body_lastName : string;
  body_password : string
}.

Record UserUpdate : Type := {
  patch_email : option string;
  patch_firstName : option string;
  patch_lastName : option string;
  patch_role : string;
  patch_isActive : bool;
  patch_password : option string
}.

(** The effects of the two forms: an alert or a call of the client. *)
Inductive form_effect : Type :=
| form_alert (message : string)
| createUserUsersPost (body : UserCreate)
| updateUserUsersUserIdPatch (user_id : string) (body : UserUpdate).


Definition handleEditUser (selectedUser : option UserRead)
    (editForm : EditForm) : list form_effect :=
  match selectedUser with
  | None => []
  | Some user =>
      [updateUserUsersUserIdPatch (user_id user)
         {| patch_email := Js.or_null (Utils.stripName (edit_email editForm));
            patch_firstName :=
              Js.or_null (Utils.stripName (edit_firstName editForm));
            patch_lastName :=
              Js.or_null (Utils.stripName (edit_lastName editForm));
            patch_role := edit_role editForm;
            patch_isActive := edit_isActive editForm;
            patch_password := Js.or_null (edit_password editForm) |}]
  end.

End Users.

(** ** The generic [DataTable] component: page-based navigation *)
Module DataTable.

Inductive PaginationMode : Type := infinite | pages.

(** [Math.ceil(a / b)] on a count [a] and a page size [b] other than 0
    (the quotient by 0, [Infinity] or [NaN], is not a value of the
    model: statements about [totalPages] take a positive page size). *)
Definition ceil_div (a b : Z) : Z :=
  (a / b + (if a mod b =? 0 then 0 else 1))%Z.

Definition totalPages (totalRows pageSize : Z) : Z :=
  ceil_div totalRows pageSize.

(** [setPage((p) => Math.max(1, p - 1))]. *)
Definition previous_onClick (p : Z) : Z := Z.max 1 (p - 1).

(** [setPage((p) => Math.min(totalPages, p + 1))]. *)
Definition next_onClick (totalPages p : Z) : Z := Z.min totalPages (p + 1).

Inductive button : Type := Previous | Next.

(** The controls are rendered when
    [paginationMode === 'pages' && totalPages > 1]. *)
Definition controls_rendered (paginationMode : PaginationMode)
    (totalPages : Z) : bool :=
  match paginationMode with
  | pages => (1 <? totalPages)%Z
  | infinite => false
  end.

(** Previous is disabled when [page === 1], Next when
    [page >= totalPages]. *)
Definition disabled (totalPages page : Z) (b : button) : bool :=
  match b with
  | Previous => (page =? 1)%Z
  | Next => (totalPages <=? page)%Z
  end.

(** The page after a click on one of the two buttons. *)
Definition click (paginationMode : PaginationMode)
    (totalRows pageSize page : Z) (b : button) : Z :=
  let totalPages := totalPages totalRows pageSize in
  if controls_rendered paginationMode totalPages
     && negb (disabled totalPages page b)
  then match b with
       | Previous => previous_onClick page
       | Next => next_onClick totalPages page
       end
  else page.

(** The page after a sequence of clicks. *)
Definition navigate (paginationMode : PaginationMode)
    (totalRows pageSize page : Z) (bs : list button) : Z :=
  fold_left (click paginationMode totalRows pageSize) bs page.

(** The range of the caption "Showing [from] to [to] of [totalRows]":
    [(page - 1) * pageSize + 1] and
    [Math.min(page * pageSize, totalRows)]. *)
Definition showing_from (page pageSize : Z) : Z :=
  ((page - 1) * pageSize + 1)%Z.

Definition showing_to (page pageSize totalRows : Z) : Z :=
  Z.min (page * pageSize) totalRows.

End DataTable.

(** ** The list endpoint, seen from the client *)
Module Backend.

(** Modelled from the spec: the list endpoints of the backend are not among
    the sources.  The Schema Metadata Store offers "offset-based
    pagination" ([list(search?, sortBy, sortOrder, skip, limit)] returns a
    page of descriptors): of the matching records in their order, the
    [limit] records that follow the first [skip]. *)
Definition list_page {R : Type} (records : list R) (query : Api.ListQuery)
    : list R :=
  firstn (Z.to_nat (Api.limit query))
    (skipn (Z.to_nat (Api.skip query)) records).


End Backend.

(** ** Shapes of names *)
Module Name.

(** Only characters of [[a-z0-9_]]. *)
Fixpoint only_name_chars (s : string) : bool :=
  match s with
  | EmptyString => true
  | String c r => Js.is_name_char c && only_name_chars r
  end.

(** [/^[a-z][a-z0-9_]*$/.test(s)]. *)
Definition is_slug (s : string) : bool :=
  match s with
  | EmptyString => false
  | String c r => Js.is_lower c && only_name_chars r
  end.

(** [/^[a-z0-9_]+$/.test(s)]. *)
Definition is_word (s : string) : bool :=
  match s with
  | EmptyString => false
  | String _ _ => only_name_chars s
  end.

End Name.

(** ** The infinite scroll of the tables list against the list endpoint *)
Module Scrolling.
Import Api.

(** The page after the single list request of a call was answered over
    [records] and the call resumed with its [append]. *)
Definition answered (records : list Tables.TableRead) (append : bool)
    (out : Tables.View * list effect) : Tables.View :=
  match snd out with
  | [send (readTablesTablesGet query)] =>
      Tables.fetchTables_resolved append
        (Tables.Data (Backend.list_page records query)) (fst out)
  | _ => fst out
  end.

(** [n] scrolls to the bottom of the grid, each answered before the next. *)
Fixpoint scroll (token : option string) (records : list Tables.TableRead)
    (n : nat) (s : Tables.View) : Tables.View :=
  match n with
  | O => s
  | S n' =>
      scroll token records n'
        (answered records true (Tables.handleScroll token s true))
  end.

(** The page after mounting and [n] scrolls to the bottom. *)
Definition load (token : option string) (records : list Tables.TableRead)
    (n : nat) : Tables.View :=
  scroll token records n
    (answered records false (Tables.fetchTables token Tables.initial 1)).

(** The page when the first [k + 1] pages have been loaded one after the
    other: nothing is pending, the grid holds the first [50 * (k + 1)]
    records, and [hasMore] tells whether the last page was full. *)
Definition loaded (records : list Tables.TableRead) (k : nat)
    (s : Tables.View) : Prop :=
  Tables.isLoadingMore s = false
  /\ Tables.loading s = false
  /\ Tables.tables s = firstn (50 * (k + 1)) records
  /\ Tables.hasMore s = (50 * (k + 1) <=? length records)%nat
  /\ (Tables.hasMore s = true -> Tables.page s = (Z.of_nat k + 1)%Z).

End Scrolling.

(** ** [context/AuthContext.tsx] and the route guards of [App] *)
Module Auth.

(** [UserRead], as far as the guards read it. *)
Record User : Type := {
  user_id : string;
  role : option string
}.

(** The provider state and the [token] item of [localStorage]. *)
Record State : Type := {
  user : option User;
  token : option string;
  isLoading : bool;
  stored : option string
}.

Definition initial (storedToken : option string) : State :=
  {| user := None; token := None; isLoading := true;
     stored := storedToken |}.

(** [isAuthenticated: !!user]. *)
Definition isAuthenticated (s : State) : bool :=
  match user s with
  | Some _ => true
  | None => false
  end.

(** What [readUsersMeUsersMeGet] resolves to: [data], no [data], or a
    rejection. *)
Inductive me : Type :=
| me_data (u : User)
| me_empty
| me_thrown.

Inductive event : Type :=
| InitStarted
| InitResolved (r : me)
| LoginGranted (access_token : string)
| LoginUserResolved (r : me)
| Logout
| RefreshResolved (r : me).

Definition step (s : State) (e : event) : State :=
  match e with
  | InitStarted =>
      if Js.truthy_opt (stored s)
      then {| user := user s; token := stored s; isLoading := isLoading s;
              stored := stored s |}
      else {| user := user s; token := token s; isLoading := false;
              stored := stored s |}
  | InitResolved (me_data u) =>
      {| user := Some u; token := token s; isLoading := false;
         stored := stored s |}
  | InitResolved _ =>
      {| user := user s; token := None; isLoading := false;
         stored := None |}
  | LoginGranted access_token =>
      {| user := user s; token := Some access_token;
         isLoading := isLoading s; stored := Some access_token |}
  | LoginUserResolved (me_data u) | RefreshResolved (me_data u) =>
      {| user := Some u; token := token s; isLoading := isLoading s;
         stored := stored s |}
  | LoginUserResolved _ | RefreshResolved _ => s
  | Logout =>
      {| user := None; token := None; isLoading := isLoading s;
         stored := None |}
  end.

(** The state after a sequence of events. *)
Definition run (s : State) (es : list event) : State := fold_left step es s.

(** What a guard renders. *)
Inductive rendered : Type :=
| Loading
| Navigate (to : string)
| Children.

Definition RequireAuth (s : State) : rendered :=
  if isLoading s then Loading
  else if negb (isAuthenticated s) then Navigate "/login"
  else Children.

(** [user?.role !== 'ADMIN']. *)
Definition is_admin (s : State) : bool :=
  match user s with
  | Some u =>
      match role u with
      | Some r => r =? "ADMIN"
      | None => false
      end
  | None => false
  end.

Definition RequireAdmin (s : State) : rendered :=
  if isLoading s then Loading
  else if negb (isAuthenticated s) then Navigate "/login"
  else if negb (is_admin s) then Navigate "/"
  else Children.

End Auth.

(** * Properties *)

(** ** Strings *)
Section StringFacts.

Lemma eqb_false_neq (a b : string) : (a =? b) = false -> a <> b.
Proof. intros H E. apply String.eqb_neq in H. contradiction. Qed.

Lemma truthy_nonempty (s : string) : Js.truthy s = true <-> s <> "".
Proof.
  unfold Js.truthy. destruct (s =? "") eqn:E; simpl.
  - apply String.eqb_eq in E. split; [discriminate | contradiction].
  - apply String.eqb_neq in E. split; auto.
Qed.

Lemma name_char_not_space (c : ascii) :
  Js.is_name_char c = true -> Js.isWhiteSpace c = false.
Proof.
  destruct c as [[] [] [] [] [] [] [] []]; vm_compute; congruence.
Qed.

Lemma lower_is_name_char (c : ascii) :
  Js.is_lower c = true -> Js.is_name_char c = true.
Proof. unfold Js.is_name_char. intros ->. reflexivity. Qed.

Lemma replace_only_name_chars (s : string) :
  Name.only_name_chars (Js.replace_non_name_chars s) = true.
Proof.
  induction s as [|c r IH]; simpl; [reflexivity|].
  destruct (Js.is_name_char c) eqn:E; simpl; [rewrite E|]; exact IH.
Qed.

Lemma replace_fixes_names (s : string) :
  Name.only_name_chars s = true -> Js.replace_non_name_chars s = s.
Proof.
  induction s as [|c r IH]; simpl; [reflexivity|].
  intros H. apply andb_true_iff in H as [Hc Hr].
  rewrite Hc, (IH Hr). reflexivity.
Qed.

Lemma trimStart_name (s : string) :
  Name.only_name_chars s = true -> Js.trimStart s = s.
Proof.
  destruct s as [|c r]; simpl; [reflexivity|].
  intros H. apply andb_true_iff in H as [Hc _].
  rewrite (name_char_not_space c Hc). reflexivity.
Qed.

Lemma trimEnd_name (s : string) :
  Name.only_name_chars s = true -> Js.trimEnd s = s.
Proof.
  induction s as [|c r IH]; simpl; [reflexivity|].
  intros H. apply andb_true_iff in H as [Hc Hr].
  rewrite (IH Hr), (name_char_not_space c Hc).
  destruct r; reflexivity.
Qed.

(** [stripName] leaves a string over [[a-z0-9_]] as it is. *)
Lemma stripName_name (s : string) :
  Name.only_name_chars s = true -> Utils.stripName s = s.
Proof.
  intros H. unfold Utils.stripName, Js.trim.
  rewrite (trimStart_name s H). apply trimEnd_name, H.
Qed.

Lemma name_input_only_name_chars (value : string) :
  Name.only_name_chars (TableDetail.name_input value) = true.
Proof. apply replace_only_name_chars. Qed.

Lemma stripName_name_input (value : string) :
  Utils.stripName (TableDetail.name_input value) = TableDetail.name_input value.
Proof. apply stripName_name, name_input_only_name_chars. Qed.

Lemma is_word_iff (s : string) :
  Name.is_word s = true <-> Name.only_name_chars s = true /\ s <> "".
Proof.
  destruct s as [|c r]; simpl.
  - split; [discriminate | intros [_ H]; contradiction].
  - split; [intros H; split; [exact H | discriminate] | intros [H _]; exact H].
Qed.

Lemma is_slug_is_word (s : string) :
  Name.is_slug s = true -> Name.is_word s = true.
Proof.
  destruct s as [|c r]; simpl; [discriminate|].
  intros H. apply andb_true_iff in H as [Hc Hr].
  rewrite (lower_is_name_char c Hc). exact Hr.
Qed.

End StringFacts.

(** ** Objects *)
Section ObjectFacts.
Context {V : Type}.
Implicit Types (o : Js.object V) (k : string) (v : V).

Lemma has_iff o k : Js.has k o = true <-> In k (Js.keys o).
Proof.
  unfold Js.has, Js.keys. rewrite existsb_exists. split.
  - intros ([k' v'] & Hin & E). apply String.eqb_eq in E. simpl in E.
    subst k'. apply in_map_iff. exists (k, v'). auto.
  - intros Hin. apply in_map_iff in Hin. destruct Hin as ([k' v'] & E & Hin).
    simpl in E. subst k'. exists (k, v'). split; [exact Hin|].
    apply String.eqb_refl.
Qed.

Lemma get_define_eq o k v : Js.get k (Js.define k v o) = Some v.
Proof.
  induction o as [|[k' v'] r IH]; simpl.
  - rewrite String.eqb_refl. reflexivity.
  - destruct (k' =? k) eqn:E; simpl.
    + rewrite String.eqb_refl. reflexivity.
    + rewrite E. exact IH.
Qed.

Lemma get_define_neq o k k' v :
  k <> k' -> Js.get k' (Js.define k v o) = Js.get k' o.
Proof.
  intros Hne. induction o as [|[k0 v0] r IH]; simpl.
  - apply String.eqb_neq in Hne. rewrite Hne. reflexivity.
  - destruct (k0 =? k) eqn:E; simpl.
    + apply String.eqb_eq in E. subst k0.
      apply String.eqb_neq in Hne. rewrite Hne. reflexivity.
    + rewrite IH. reflexivity.
Qed.

Lemma in_keys_define o k k' v :
  In k' (Js.keys (Js.define k v o)) <-> k' = k \/ In k' (Js.keys o).
Proof.
  unfold Js.keys. induction o as [|[k0 v0] r IH]; simpl.
  - intuition.
  - destruct (k0 =? k) eqn:E; simpl.
    + apply String.eqb_eq in E. subst k0. intuition.
    + rewrite IH. intuition.
Qed.

Lemma in_define o k v k' v' :
  In (k', v') (Js.define k v o) -> (k' = k /\ v' = v) \/ In (k', v') o.
Proof.
  induction o as [|[k0 v0] r IH]; simpl.
  - intros [H|[]]. inversion H. auto.
  - destruct (k0 =? k); simpl.
    + intros [H|H]; [inversion H; auto | auto].
    + intros [H|H]; [auto | destruct (IH H); auto].
Qed.

Lemma nodup_keys_define o k v :
  NoDup (Js.keys o) -> NoDup (Js.keys (Js.define k v o)).
Proof.
  unfold Js.keys. induction o as [|[k0 v0] r IH]; simpl; intros H.
  - constructor; [intros [] | constructor].
  - inversion H as [|? ? Hnot Hr]; subst.
    destruct (k0 =? k) eqn:E; simpl.
    + apply String.eqb_eq in E. subst k0. constructor; assumption.
    + constructor; [|apply IH, Hr].
      intros Hin. apply (in_keys_define r k k0 v) in Hin.
      destruct Hin as [Heq|Hin]; [|contradiction].
      subst k0. rewrite String.eqb_refl in E. discriminate.
Qed.

(** An assignment is a definition, or nothing at all. *)
Lemma set_cases o k v :
  (Js.set k v o = Js.define k v o /\
   (k <> "__proto__" \/ In k (Js.keys o))) \/
  (Js.set k v o = o /\ k = "__proto__" /\ ~ In k (Js.keys o)).
Proof.
  unfold Js.set. destruct (k =? "__proto__") eqn:E; simpl.
  - apply String.eqb_eq in E. destruct (Js.has k o) eqn:H; simpl.
    + left. split; [reflexivity|]. right. apply has_iff, H.
    + right. split; [reflexivity|]. split; [exact E|].
      intros Hin. apply has_iff in Hin. congruence.
  - apply String.eqb_neq in E. left. auto.
Qed.

Lemma set_define o k v :
  k <> "__proto__" -> Js.set k v o = Js.define k v o.
Proof.
  intros Hne. destruct (set_cases o k v) as [[E _]|(_ & E & _)];
    [exact E | contradiction].
Qed.

Lemma get_set_eq o k v :
  k <> "__proto__" -> Js.get k (Js.set k v o) = Some v.
Proof.
  intros Hne. rewrite set_define by exact Hne. apply get_define_eq.
Qed.

Lemma get_set_neq o k k' v :
  k <> k' -> Js.get k' (Js.set k v o) = Js.get k' o.
Proof.
  intros Hne. destruct (set_cases o k v) as [[E _]|[E _]]; rewrite E;
    [apply get_define_neq, Hne | reflexivity].
Qed.

Lemma in_keys_set o k k' v :
  In k' (Js.keys (Js.set k v o)) <->
  (k' = k /\ k <> "__proto__") \/ In k' (Js.keys o).
Proof.
  destruct (set_cases o k v) as [[E [Hne|Hin]]|(E & Hp & Hnot)]; rewrite E.
  - rewrite in_keys_define. tauto.
  - rewrite in_keys_define. split.
    + intros [->|H]; auto.
    + intros [[-> _]|H]; auto.
  - split; [auto|]. intros [[_ Hne]|H]; [contradiction | exact H].
Qed.

Lemma in_set o k v k' v' :
  In (k', v') (Js.set k v o) -> (k' = k /\ v' = v) \/ In (k', v') o.
Proof.
  destruct (set_cases o k v) as [[E _]|[E _]]; rewrite E;
    [apply in_define | auto].
Qed.

Lemma nodup_keys_set o k v :
  NoDup (Js.keys o) -> NoDup (Js.keys (Js.set k v o)).
Proof.
  destruct (set_cases o k v) as [[E _]|[E _]]; rewrite E;
    [apply nodup_keys_define | auto].
Qed.



Lemma in_keys_rest o k k' :
  In k' (Js.keys (Js.rest k o)) <-> In k' (Js.keys o) /\ k' <> k.
Proof.
  unfold Js.keys, Js.rest. induction o as [|[k0 v0] r IH]; simpl.
  - intuition.
  - destruct (k0 =? k) eqn:E; simpl.
    + apply String.eqb_eq in E. subst k0. rewrite IH.
      intuition. subst. contradiction.
    + apply String.eqb_neq in E. rewrite IH. intuition. subst. auto.
Qed.

End ObjectFacts.

(** ** Loops that assign into an object

    [for]/[forEach] loops of the shape
    [if (keep(e)) acc[key(e)] = val(e)]. *)
Section AssignLoop.
Context {E V : Type}.
Variables (keep : E -> bool) (key : E -> string) (val : E -> V).

Local Abbreviation body :=
  (fun (acc : Js.object V) (e : E) =>
     if keep e then Js.set (key e) (val e) acc else acc).

Lemma loop_in (l : list E) (acc : Js.object V) (k : string) (v : V) :
  In (k, v) (fold_left body l acc) ->
  In (k, v) acc \/
  exists e, In e l /\ keep e = true /\ key e = k /\ val e = v.
Proof.
  revert acc. induction l as [|e l IH]; simpl; intros acc H; [auto|].
  apply IH in H. destruct H as [H|(e' & Hin & Hk)].
  - destruct (keep e) eqn:K; [|auto].
    apply in_set in H. destruct H as [[-> ->]|H]; [|auto].
    right. exists e. auto.
  - right. exists e'. tauto.
Qed.

(** The keys of the result: those of the start, and the keys other than
    [__proto__] of the kept elements. *)
Lemma loop_in_keys (l : list E) (acc : Js.object V) (k : string) :
  In k (Js.keys (fold_left body l acc)) <->
  In k (Js.keys acc) \/
  (k <> "__proto__" /\ exists e, In e l /\ keep e = true /\ key e = k).
Proof.
  revert acc. induction l as [|e l IH]; simpl; intros acc.
  - split; [auto | intros [H|(_ & e & [] & _)]; exact H].
  - rewrite IH. split.
    + intros [H|(Hne & e' & Hin & Hk)].
      * destruct (keep e) eqn:K; [|auto].
        apply in_keys_set in H. destruct H as [[-> Hne]|H]; [|auto].
        right. split; [exact Hne|]. exists e. auto.
      * right. split; [exact Hne|]. exists e'. tauto.
    + intros [H|(Hne & e' & [->|Hin] & Hk & Hkey)].
      * left. destruct (keep e); [apply in_keys_set|]; auto.
      * left. rewrite Hk. apply in_keys_set. left. subst k. auto.
      * right. split; [exact Hne|]. exists e'. auto.
Qed.

Lemma loop_nodup (l : list E) (acc : Js.object V) :
  NoDup (Js.keys acc) -> NoDup (Js.keys (fold_left body l acc)).
Proof.
  revert acc. induction l as [|e l IH]; simpl; intros acc H; [exact H|].
  apply IH. destruct (keep e); [apply nodup_keys_set|]; exact H.
Qed.

(** A key no kept element assigns keeps the value it had. *)
Lemma loop_get_untouched (l : list E) (acc : Js.object V) (k : string) :
  (forall e, In e l -> keep e = true -> key e <> k) ->
  Js.get k (fold_left body l acc) = Js.get k acc.
Proof.
  revert acc. induction l as [|e l IH]; simpl; intros acc H; [reflexivity|].
  rewrite IH by (intros e' Hin; apply H; auto).
  destruct (keep e) eqn:K; [|reflexivity].
  apply get_set_neq. apply H; auto.
Qed.

(** The last kept element that assigns a key decides its value. *)
Lemma loop_get_last (l1 l2 : list E) (e : E) (acc : Js.object V) :
  keep e = true ->
  key e <> "__proto__" ->
  (forall e', In e' l2 -> keep e' = true -> key e' <> key e) ->
  Js.get (key e) (fold_left body (l1 ++ e :: l2) acc) = Some (val e).
Proof.
  intros K Hne H. rewrite fold_left_app. simpl.
  rewrite loop_get_untouched by exact H.
  rewrite K. apply get_set_eq, Hne.
Qed.

End AssignLoop.

(** ** Names typed into the forms *)
Section NameForms.
Import Api.

(** What the Add Column form does with a typed name. *)
Lemma handleAddColumn_typed (t : string) (nc : ColumnDefinition)
    (value : string) :
  Js.truthy t = true ->
  TableDetail.handleAddColumn (Some t)
    (TableDetail.newColumn_onChange_name nc value) =
  if TableDetail.name_input value =? ""
  then [alert "Column name cannot be empty"]
  else [send (addColumnTablesTableIdColumnsPost t
                {| name := TableDetail.name_input value;
                   type := type nc;
                   nullable := nullable nc;
                   default := default nc |})].
Proof.
  intros Ht. unfold TableDetail.handleAddColumn. rewrite Ht. simpl.
  rewrite stripName_name_input. unfold Js.truthy.
  destruct (TableDetail.name_input value =? ""); reflexivity.
Qed.

(** What the Edit Column form does with a typed name. *)
Lemma handleUpdateColumn_typed (t : string) (ec : TableDetail.EditColumn)
    (value : string) :
  Js.truthy t = true ->
  TableDetail.handleUpdateColumn (Some t)
    (TableDetail.editColumn_onChange_name ec value) =
  if TableDetail.name_input value =? ""
  then [alert "Column name cannot be empty"]
  else [send (updateColumnTablesTableIdColumnsColumnNamePatch t
                (TableDetail.originalName ec)
                {| new_name :=
                     if TableDetail.name_input value
                        =? TableDetail.originalName ec
                     then None else Some (TableDetail.name_input value);
                   upd_type := TableDetail.edit_type ec;
                   upd_nullable := TableDetail.edit_nullable ec |})].
Proof.
  intros Ht. unfold TableDetail.handleUpdateColumn. rewrite Ht. simpl.
  rewrite stripName_name_input. unfold Js.truthy.
  destruct (TableDetail.name_input value =? ""); reflexivity.
Qed.

(** What the Edit Table form does with a typed name. *)
Lemma handleEditTable_typed (table : Tables.TableRead)
    (ef : Tables.EditForm) (value : string) :
  Tables.handleEditTable (Some table)
    (Tables.editForm_onChange_name ef value) =
  if TableDetail.name_input value =? ""
  then [alert "Table name cannot be empty"]
  else [send (updateTableTablesTableIdPatch (Tables.table_id table)
                {| update_name :=
                     if TableDetail.name_input value
                        =? Tables.table_name table
                     then None else Some (TableDetail.name_input value);
                   update_description :=
                     Js.or_null
                       (Utils.stripName (Tables.edit_description ef));
                   update_public := Tables.edit_public ef |})].
Proof.
  unfold Tables.handleEditTable. simpl.
  fold (TableDetail.name_input value).
  rewrite stripName_name_input. unfold Js.truthy.
  destruct (TableDetail.name_input value =? ""); reflexivity.
Qed.

(** Without a table id the column handlers do nothing. *)
Lemma handleAddColumn_requests (tableId : option string)
    (nc : ColumnDefinition) (r : request) :
  In (send r) (TableDetail.handleAddColumn tableId nc) ->
  exists t, tableId = Some t /\ Js.truthy t = true.
Proof.
  unfold TableDetail.handleAddColumn. destruct tableId as [t|]; [|intros []].
  destruct (Js.truthy t) eqn:Ht; simpl; [intros _; eauto | intros []].
Qed.

Lemma handleUpdateColumn_requests (tableId : option string)
    (ec : TableDetail.EditColumn) (r : request) :
  In (send r) (TableDetail.handleUpdateColumn tableId ec) ->
  exists t, tableId = Some t /\ Js.truthy t = true.
Proof.
  unfold TableDetail.handleUpdateColumn.
  destruct tableId as [t|]; [|intros []].
  destruct (Js.truthy t) eqn:Ht; simpl; [intros _; eauto | intros []].
Qed.

(** X1. The three sanitising forms submit the typed name lower-cased and
    stripped of every character outside [[a-z0-9_]]: the Add Column form
    as the name of the column, the Edit Column and the Edit Table form as
    the new name of the column or table, or as no new name at all when
    it is the current name.  They send nothing when nothing is left of
    the typed name. *)
Theorem sanitising_forms_submit_normalised_name (value : string) :
  let typed := Js.replace_non_name_chars (Js.toLowerCase value) in
  (forall t nc, Js.truthy t = true ->
     requests (TableDetail.handleAddColumn (Some t)
                 (TableDetail.newColumn_onChange_name nc value)) =
     if typed =? "" then []
     else [addColumnTablesTableIdColumnsPost t
             {| name := typed;
                type := type nc; nullable := nullable nc;
                default := default nc |}])
  /\ (forall t ec, Js.truthy t = true ->
        requests (TableDetail.handleUpdateColumn (Some t)
                    (TableDetail.editColumn_onChange_name ec value)) =
        if typed =? "" then []
        else [updateColumnTablesTableIdColumnsColumnNamePatch t
                (TableDetail.originalName ec)
                {| new_name :=
                     if typed =? TableDetail.originalName ec then None
                     else Some typed;
                   upd_type := TableDetail.edit_type ec;
                   upd_nullable := TableDetail.edit_nullable ec |}])
  /\ (forall table ef,
        requests (Tables.handleEditTable (Some table)
                    (Tables.editForm_onChange_name ef value)) =
        if typed =? "" then []
        else [updateTableTablesTableIdPatch (Tables.table_id table)
                {| update_name :=
                     if typed =? Tables.table_name table then None
                     else Some typed;
                   update_description :=
                     Js.or_null
                       (Utils.stripName (Tables.edit_description ef));
                   update_public := Tables.edit_public ef |}]).
Proof.
  intros typed. subst typed. fold (TableDetail.name_input value).
  split; [|split].
  - intros t nc Ht. rewrite (handleAddColumn_typed t nc value Ht).
    destruct (TableDetail.name_input value =? ""); reflexivity.
  - intros t ec Ht. rewrite (handleUpdateColumn_typed t ec value Ht).
    destruct (TableDetail.name_input value =? ""); reflexivity.
  - intros table ef. rewrite (handleEditTable_typed table ef value).
    destruct (TableDetail.name_input value =? ""); reflexivity.
Qed.

End NameForms.

(** ** Claims about names *)
Section NameClaims.
Import Api.

(** C1. The Create Table form does not normalise what is typed: its name
    inputs store the raw value and [handleCreateTable] only trims it, so
    the table name ["My Table"] and the column name ["Full Name"] are
    submitted as they are, whereas the sanitising input of the Edit Table
    form turns the same table name into ["mytable"]. *)
Theorem create_table_submits_unnormalised_name :
  Tables.handleCreateTable
    (Tables.handleColumnChange_name
       (Tables.handleAddColumn
          (Tables.createForm_onChange_name Tables.initial_createForm
             "My Table"))
       1 "Full Name") =
  [send (createTableTablesPost
           {| create_name := "My Table";
              create_description := None;
              create_public := false;
              create_schema :=
                [ ("id", {| entry_type := "uuid";
                            entry_nullable := false |});
                  ("Full Name", {| entry_type := "text";
                                   entry_nullable := true |}) ] |})]
  /\ Js.replace_non_name_chars (Js.toLowerCase "My Table") = "mytable"
  /\ Tables.edit_name
       (Tables.editForm_onChange_name
          {| Tables.edit_name := ""; Tables.edit_description := "";
             Tables.edit_public := false |} "My Table") = "mytable".
Proof. repeat split. Qed.

(** C4, as stated, fails: the Add Column form submits the name ["1abc"],
    which does not match [^[a-z][a-z0-9_]*$]; so does ["_x"]. *)
Lemma leading_digit_name_is_submitted :
  TableDetail.handleAddColumn (Some "t1")
    (TableDetail.newColumn_onChange_name
       (TableDetail.initial_newColumn "text") "1abc") =
  [send (addColumnTablesTableIdColumnsPost "t1"
           {| name := "1abc"; type := "text"; nullable := true;
              default := None |})]
  /\ Name.is_slug "1abc" = false
  /\ TableDetail.handleAddColumn (Some "t1")
       (TableDetail.newColumn_onChange_name
          (TableDetail.initial_newColumn "text") "_x") =
     [send (addColumnTablesTableIdColumnsPost "t1"
              {| name := "_x"; type := "text"; nullable := true;
                 default := None |})]
  /\ Name.is_slug "_x" = false.
Proof. repeat split. Qed.

(** C4, amended. Every name submitted from the Add Column, Edit Column and
    Edit Table forms after typing matches [^[a-z0-9_]+$]; the first
    character is not checked: every typed value that leaves such a word,
    whether it begins with a letter, a digit or an underscore, is
    submitted, and only the empty name is rejected. *)
Theorem typed_names_are_words (value : string) :
  (forall tableId nc t body,
     In (send (addColumnTablesTableIdColumnsPost t body))
        (TableDetail.handleAddColumn tableId
           (TableDetail.newColumn_onChange_name nc value)) ->
     Name.is_word (name body) = true)
  /\ (forall tableId ec t c body n,
        In (send (updateColumnTablesTableIdColumnsColumnNamePatch t c body))
           (TableDetail.handleUpdateColumn tableId
              (TableDetail.editColumn_onChange_name ec value)) ->
        new_name body = Some n -> Name.is_word n = true)
  /\ (forall selectedTable ef t body n,
        In (send (updateTableTablesTableIdPatch t body))
           (Tables.handleEditTable selectedTable
              (Tables.editForm_onChange_name ef value)) ->
        update_name body = Some n -> Name.is_word n = true)
  /\ (forall t nc,
        Js.truthy t = true ->
        Name.is_word (TableDetail.name_input value) = true ->
        TableDetail.handleAddColumn (Some t)
          (TableDetail.newColumn_onChange_name nc value) =
        [send (addColumnTablesTableIdColumnsPost t
                 {| name := TableDetail.name_input value;
                    type := type nc; nullable := nullable nc;
                    default := default nc |})])
  /\ (forall t ec,
        Js.truthy t = true ->
        Name.is_word (TableDetail.name_input value) = true ->
        requests (TableDetail.handleUpdateColumn (Some t)
                    (TableDetail.editColumn_onChange_name ec value)) <> [])
  /\ (forall table ef,
        Name.is_word (TableDetail.name_input value) = true ->
        requests (Tables.handleEditTable (Some table)
                    (Tables.editForm_onChange_name ef value)) <> []).
Proof.
  assert (W : TableDetail.name_input value <> "" ->
              Name.is_word (TableDetail.name_input value) = true).
  { intros Hne. apply is_word_iff. split;
      [apply name_input_only_name_chars | exact Hne]. }
  repeat apply conj.
  - intros tableId nc t body Hin.
    destruct (handleAddColumn_requests _ _ _ Hin) as (t' & -> & Ht).
    rewrite (handleAddColumn_typed t' nc value Ht) in Hin.
    destruct (TableDetail.name_input value =? "") eqn:E;
      destruct Hin as [Hin|[]]; [discriminate|].
    inversion Hin; subst; simpl. apply W, eqb_false_neq, E.
  - intros tableId ec t c body n Hin Hn.
    destruct (handleUpdateColumn_requests _ _ _ Hin) as (t' & -> & Ht).
    rewrite (handleUpdateColumn_typed t' ec value Ht) in Hin.
    destruct (TableDetail.name_input value =? "") eqn:E;
      destruct Hin as [Hin|[]]; [discriminate|].
    inversion Hin; subst; simpl in Hn.
    destruct (TableDetail.name_input value =? TableDetail.originalName ec);
      [discriminate|].
    inversion Hn; subst. apply W, eqb_false_neq, E.
  - intros selectedTable ef t body n Hin Hn.
    destruct selectedTable as [table|]; [|destruct Hin].
    rewrite (handleEditTable_typed table ef value) in Hin.
    destruct (TableDetail.name_input value =? "") eqn:E;
      destruct Hin as [Hin|[]]; [discriminate|].
    inversion Hin; subst; simpl in Hn.
    destruct (TableDetail.name_input value =? Tables.table_name table);
      [discriminate|].
    inversion Hn; subst. apply W, eqb_false_neq, E.
  - intros t nc Ht Hw. rewrite (handleAddColumn_typed t nc value Ht).
    apply is_word_iff in Hw as [_ Hne]. apply String.eqb_neq in Hne.
    rewrite Hne. reflexivity.
  - intros t ec Ht Hw. rewrite (handleUpdateColumn_typed t ec value Ht).
    apply is_word_iff in Hw as [_ Hne]. apply String.eqb_neq in Hne.
    rewrite Hne. discriminate.
  - intros table ef Hw. rewrite (handleEditTable_typed table ef value).
    apply is_word_iff in Hw as [_ Hne]. apply String.eqb_neq in Hne.
    rewrite Hne. discriminate.
Qed.

Lemma typed_names_are_words_witness :
  In (send (addColumnTablesTableIdColumnsPost "t1"
              {| name := "9lives"; type := "text"; nullable := true;
                 default := None |}))
     (TableDetail.handleAddColumn (Some "t1")
        (TableDetail.newColumn_onChange_name
           (TableDetail.initial_newColumn "text") "9 Lives"))
  /\ Name.is_word "9lives" = true.
Proof.
  split.
  - left. reflexivity.
  - apply (proj1 (typed_names_are_words "9 Lives") (Some "t1")
             (TableDetail.initial_newColumn "text") "t1"
             {| name := "9lives"; type := "text"; nullable := true;
                default := None |}).
    left. reflexivity.
Defined.

(** C5, as stated, fails: a column named [id] is added, and a column is
    renamed to [id], without any objection from name validation. *)
Lemma id_column_name_is_submitted :
  TableDetail.handleAddColumn (Some "t1")
    (TableDetail.newColumn_onChange_name
       (TableDetail.initial_newColumn "text") "id") =
  [send (addColumnTablesTableIdColumnsPost "t1"
           {| name := "id"; type := "text"; nullable := true;
              default := None |})]
  /\ TableDetail.handleUpdateColumn (Some "t1")
       (TableDetail.editColumn_onChange_name
          (TableDetail.openEditColumnModal
             {| TableDetail.col_name := "title";
                TableDetail.col_type := "text";
                TableDetail.col_nullable := true |}) "id") =
     [send (updateColumnTablesTableIdColumnsColumnNamePatch "t1" "title"
              {| new_name := Some "id"; upd_type := "text";
                 upd_nullable := true |})].
Proof. split; reflexivity. Qed.

(** C5, amended. For every add-column or column-rename operation, name
    validation rejects exactly the names that are empty after
    normalisation; the name [id] is not reserved by the forms: typing it
    into the Add Column form issues the add request with name [id], and
    typing it into the Edit Column form of a column not already called
    [id] issues the rename request with new name [id]. *)
Theorem only_empty_column_names_are_rejected :
  (forall t nc value,
     Js.truthy t = true ->
     requests (TableDetail.handleAddColumn (Some t)
                 (TableDetail.newColumn_onChange_name nc value)) = []
     <-> TableDetail.name_input value = "")
  /\ (forall t ec value,
        Js.truthy t = true ->
        requests (TableDetail.handleUpdateColumn (Some t)
                    (TableDetail.editColumn_onChange_name ec value)) = []
        <-> TableDetail.name_input value = "")
  /\ (forall t nc,
        Js.truthy t = true ->
        TableDetail.handleAddColumn (Some t)
          (TableDetail.newColumn_onChange_name nc "id") =
        [send (addColumnTablesTableIdColumnsPost t
                 {| name := "id"; type := type nc;
                    nullable := nullable nc; default := default nc |})])
  /\ (forall t ec,
        Js.truthy t = true ->
        TableDetail.originalName ec <> "id" ->
        TableDetail.handleUpdateColumn (Some t)
          (TableDetail.editColumn_onChange_name ec "id") =
        [send (updateColumnTablesTableIdColumnsColumnNamePatch t
                 (TableDetail.originalName ec)
                 {| new_name := Some "id";
                    upd_type := TableDetail.edit_type ec;
                    upd_nullable := TableDetail.edit_nullable ec |})]).
Proof.
  repeat apply conj.
  - intros t nc value Ht. rewrite (handleAddColumn_typed t nc value Ht).
    destruct (TableDetail.name_input value =? "") eqn:E; simpl.
    + apply String.eqb_eq in E. tauto.
    + apply String.eqb_neq in E. split; [discriminate | contradiction].
  - intros t ec value Ht. rewrite (handleUpdateColumn_typed t ec value Ht).
    destruct (TableDetail.name_input value =? "") eqn:E; simpl.
    + apply String.eqb_eq in E. tauto.
    + apply String.eqb_neq in E. split; [discriminate | contradiction].
  - intros t nc Ht. rewrite (handleAddColumn_typed t nc "id" Ht).
    reflexivity.
  - intros t ec Ht Hne. rewrite (handleUpdateColumn_typed t ec "id" Ht).
    change (TableDetail.name_input "id") with "id".
    change ("id" =? "") with false. cbv iota.
    destruct ("id" =? TableDetail.originalName ec) eqn:E; [|reflexivity].
    apply String.eqb_eq in E. symmetry in E. contradiction.
Qed.

Lemma only_empty_column_names_are_rejected_witness :
  Js.truthy "t1" = true
  /\ TableDetail.handleAddColumn (Some "t1")
       (TableDetail.newColumn_onChange_name
          (TableDetail.initial_newColumn "uuid") "id") =
     [send (addColumnTablesTableIdColumnsPost "t1"
              {| name := "id"; type := "uuid"; nullable := true;
                 default := None |})].
Proof.
  split; [reflexivity|].
  apply (proj1 (proj2 (proj2 only_empty_column_names_are_rejected)) "t1"
           (TableDetail.initial_newColumn "uuid")).
  reflexivity.
Defined.

End NameClaims.

(** ** The Create Table form *)
Section CreateTable.
Import Api.

Local Abbreviation column_key :=
  (fun col : Tables.ColumnForm => Utils.stripName (Tables.column_name col)).

Local Abbreviation column_entry :=
  (fun col : Tables.ColumnForm =>
     {| entry_type := Tables.column_type col;
        entry_nullable := Tables.column_nullable col |}).

(** The loop of [handleCreateTable] either stops at the first empty column
    name or assigns every column in order. *)
Lemma build_schema_loop (columns : list Tables.ColumnForm)
    (schema : Js.object SchemaEntry) :
  Tables.build_schema columns schema =
  if forallb (fun col => Js.truthy (column_key col)) columns
  then Some (fold_left
               (fun acc col =>
                  if true then Js.set (column_key col) (column_entry col) acc
                  else acc)
               columns schema)
  else None.
Proof.
  revert schema. induction columns as [|col r IH]; intros schema; simpl.
  - reflexivity.
  - destruct (Js.truthy (Utils.stripName (Tables.column_name col))); simpl.
    + apply IH.
    + reflexivity.
Qed.

Lemma forallb_truthy_keys (columns : list Tables.ColumnForm) :
  forallb (fun col => Js.truthy (column_key col)) columns = true <->
  Forall (fun col => column_key col <> "") columns.
Proof.
  rewrite forallb_forall, Forall_forall.
  split; intros H col Hin; apply truthy_nonempty, H, Hin.
Qed.

(** C3, as stated, fails: a form with two columns called [title] is not
    rejected; the create call is made, with one [title] entry that carries
    the type of the second column. *)
Lemma duplicate_column_names_are_not_rejected :
  Tables.handleCreateTable
    {| Tables.form_name := "notes";
       Tables.form_description := "";
       Tables.form_public := false;
       Tables.form_columns :=
         [ {| Tables.column_name := "id"; Tables.column_type := "uuid";
              Tables.column_nullable := false |};
           {| Tables.column_name := "title"; Tables.column_type := "text";
              Tables.column_nullable := true |};
           {| Tables.column_name := "title"; Tables.column_type := "integer";
              Tables.column_nullable := false |} ] |} =
  [send (createTableTablesPost
           {| create_name := "notes";
              create_description := None;
              create_public := false;
              create_schema :=
                [ ("id", {| entry_type := "uuid";
                            entry_nullable := false |});
                  ("title", {| entry_type := "integer";
                               entry_nullable := false |}) ] |})].
Proof. reflexivity. Qed.

(** C3, amended. For every submitted create-table form the client checks
    only that the table name and every column name are non-empty after
    trimming; it then makes exactly one create call for the whole column
    set, and none otherwise.  Column names are not checked for uniqueness:
    the schema of the call has one entry per distinct trimmed name other
    than [__proto__] (names compared as written, not case-insensitively),
    and entries with equal names collapse into the one of the last such
    column.  A column named [__proto__] gets no entry: the assignment to
    that key stores none. *)
Theorem create_table_single_call_without_uniqueness_check
    (createForm : Tables.CreateForm) :
  (length (requests (Tables.handleCreateTable createForm)) <= 1)%nat
  /\ (Utils.stripName (Tables.form_name createForm) <> "" ->
      Forall (fun col => column_key col <> "")
        (Tables.form_columns createForm) ->
      exists schema,
        Tables.handleCreateTable createForm =
        [send (createTableTablesPost
                 {| create_name :=
                      Utils.stripName (Tables.form_name createForm);
                    create_description :=
                      Js.or_null
                        (Utils.stripName
                           (Tables.form_description createForm));
                    create_public := Tables.form_public createForm;
                    create_schema := schema |})]
        /\ NoDup (Js.keys schema)
        /\ (forall k, In k (Js.keys schema) <->
                      In k (map column_key (Tables.form_columns createForm))
                      /\ k <> "__proto__")
        /\ (forall before col after,
              Tables.form_columns createForm = (before ++ col :: after)%list ->
              column_key col <> "__proto__" ->
              (forall c, In c after -> column_key c <> column_key col) ->
              Js.get (column_key col) schema = Some (column_entry col)))
  /\ (Utils.stripName (Tables.form_name createForm) = "" \/
      Exists (fun col => column_key col = "")
        (Tables.form_columns createForm) ->
      requests (Tables.handleCreateTable createForm) = []).
Proof.
  unfold Tables.handleCreateTable. rewrite build_schema_loop.
  set (cols := Tables.form_columns createForm).
  set (tableName := Utils.stripName (Tables.form_name createForm)).
  repeat apply conj.
  - destruct (Js.truthy tableName); simpl; [|auto].
    destruct (forallb _ cols); simpl; auto.
  - intros Hname Hcols.
    apply truthy_nonempty in Hname. rewrite Hname. simpl.
    apply forallb_truthy_keys in Hcols. rewrite Hcols.
    eexists. split; [reflexivity|]. repeat apply conj.
    + apply (loop_nodup (fun _ => true) column_key column_entry).
      constructor.
    + intros k.
      rewrite (loop_in_keys (fun _ => true) column_key column_entry).
      rewrite in_map_iff. simpl. split.
      * intros [[]|(Hne & e & Hin & _ & Hk)].
        split; [exists e; auto | exact Hne].
      * intros ((e & Hk & Hin) & Hne). right.
        split; [exact Hne | exists e; auto].
    + intros before col after Hsplit Hne Hlast. rewrite Hsplit.
      apply (loop_get_last (fun _ => true) column_key column_entry);
        [reflexivity | exact Hne | intros c Hin _; apply Hlast, Hin].
  - intros [Hname|Hcol].
    + fold tableName in Hname. rewrite Hname. reflexivity.
    + destruct (Js.truthy tableName); [|reflexivity]. simpl.
      destruct (forallb _ cols) eqn:F; [|reflexivity].
      apply forallb_truthy_keys in F.
      apply Exists_exists in Hcol as (c & Hin & Hc).
      rewrite Forall_forall in F. exfalso. exact (F c Hin Hc).
Qed.

Lemma create_table_single_call_without_uniqueness_check_witness :
  let createForm :=
    Tables.createForm_onChange_name Tables.initial_createForm " notes " in
  Utils.stripName (Tables.form_name createForm) <> ""
  /\ Forall (fun col => column_key col <> "")
       (Tables.form_columns createForm)
  /\ exists schema,
       Tables.handleCreateTable createForm =
       [send (createTableTablesPost
                {| create_name := "notes";
                   create_description := None;
                   create_public := false;
                   create_schema := schema |})]
       /\ Js.get "id" schema =
          Some {| entry_type := "uuid"; entry_nullable := false |}.
Proof.
  intros createForm.
  assert (Hname : Utils.stripName (Tables.form_name createForm) <> "")
    by discriminate.
  assert (Hcols : Forall (fun col => column_key col <> "")
                    (Tables.form_columns createForm))
    by (repeat constructor; discriminate).
  split; [exact Hname|]. split; [exact Hcols|].
  destruct (proj1 (proj2 (create_table_single_call_without_uniqueness_check
                            createForm)) Hname Hcols)
    as (schema & Hcall & _ & _ & Hget).
  exists schema. split; [exact Hcall|].
  apply (Hget [] {| Tables.column_name := "id"; Tables.column_type := "uuid";
                    Tables.column_nullable := false |} []);
    [reflexivity | discriminate | intros c []].
Defined.

End CreateTable.

(** ** Row bodies *)
Section RowBodies.
Import Api.

Lemma fold_left_over_map {A B C : Type} (f : A -> C -> A) (g : B -> C)
    (l : list B) (a : A) :
  fold_left f (map g l) a = fold_left (fun acc x => f acc (g x)) l a.
Proof.
  revert a. induction l as [|x l IH]; intros a; simpl; [reflexivity|].
  apply IH.
Qed.

Local Abbreviation kept :=
  (fun e : string * Js.value =>
     Js.is_filled (snd e) && Js.truthy (Utils.stripName (fst e))).

Local Abbreviation stripped_key :=
  (fun e : string * Js.value => Utils.stripName (fst e)).

(** The Add Row form only ever holds fields of rendered inputs. *)
Lemma openAddRowModal_keys (columns : list TableDetail.Col) (k : string) :
  In k (Js.keys (TableDetail.openAddRowModal columns)) <->
  k <> "__proto__" /\
  exists col, In col (TableDetail.addRow_inputs columns)
              /\ TableDetail.col_name col = k.
Proof.
  unfold TableDetail.openAddRowModal, TableDetail.addRow_inputs.
  pose proof (loop_in_keys (fun col => negb (TableDetail.is_uuid_id col))
                TableDetail.col_name (fun _ => Js.Str "") columns [] k) as L.
  assert (E : forall acc,
             fold_left
               (fun initialData col =>
                  if TableDetail.is_uuid_id col then initialData
                  else Js.set (TableDetail.col_name col) (Js.Str "")
                         initialData) columns acc =
             fold_left
               (fun acc col =>
                  if negb (TableDetail.is_uuid_id col)
                  then Js.set (TableDetail.col_name col) (Js.Str "") acc
                  else acc) columns acc).
  { clear L. induction columns as [|c r IH]; intros acc; simpl;
      [reflexivity|].
    destruct (TableDetail.is_uuid_id c); simpl; apply IH. }
  rewrite E, L. simpl. split.
  - intros [[]|(Hne & col & Hin & Hk & Hn)]. split; [exact Hne|].
    exists col. split; [|exact Hn].
    apply filter_In. auto.
  - intros (Hne & col & Hin & Hn). apply filter_In in Hin as [Hin Hk].
    right. split; [exact Hne|]. exists col. auto.
Qed.

Lemma addRow_session_keys (columns : list TableDetail.Col)
    (typed : list (TableDetail.Col * string)) (k : string) :
  Forall (fun e => In (fst e) (TableDetail.addRow_inputs columns)) typed ->
  In k (Js.keys (TableDetail.addRow_session columns typed)) ->
  exists col, In col (TableDetail.addRow_inputs columns)
              /\ TableDetail.col_name col = k.
Proof.
  unfold TableDetail.addRow_session. intros Htyped.
  generalize (TableDetail.openAddRowModal columns)
             (fun H => proj2 (proj1 (openAddRowModal_keys columns k) H)).
  induction Htyped as [|[col value] typed Hcol _ IH]; intros o Ho; simpl.
  - exact Ho.
  - apply IH. unfold TableDetail.newRowData_onChange. simpl.
    intros Hin. apply in_keys_define in Hin. destruct Hin as [->|Hin].
    + exists col. auto.
    + apply Ho, Hin.
Qed.

Lemma cleanData_in (newRowData : Js.object Js.value) (k : string)
    (v : Js.value) :
  In (k, v) (TableDetail.cleanData newRowData) ->
  exists k0, In (k0, v) newRowData /\ Utils.stripName k0 = k
             /\ Js.is_filled v = true /\ k <> "".
Proof.
  unfold TableDetail.cleanData. intros H.
  apply (loop_in kept stripped_key snd) in H.
  destruct H as [[]|([k0 v0] & Hin & Hk & Hkey & Hv)].
  simpl in *. subst. apply andb_true_iff in Hk as [Hf Ht].
  exists k0. repeat split; [exact Hin | exact Hf | apply truthy_nonempty, Ht].
Qed.

(** X2. The Add Row form of a table never submits an entry for the column
    named [id] whose type is a UUID: each entry of the body is the trimmed
    name of a column that has an input in the form. *)
Theorem add_row_form_skips_uuid_id (columns : list TableDetail.Col)
    (typed : list (TableDetail.Col * string)) (tableId : option string)
    (t : string) (body : Js.object Js.value) (k : string) :
  Forall (fun e => In (fst e) (TableDetail.addRow_inputs columns)) typed ->
  In (send (insertRowTablesTableIdDataPost t body))
     (TableDetail.handleAddRow tableId
        (TableDetail.addRow_session columns typed)) ->
  In k (Js.keys body) ->
  exists col, In col columns /\ TableDetail.is_uuid_id col = false
              /\ Utils.stripName (TableDetail.col_name col) = k.
Proof.
  intros Htyped Hsend Hk. unfold TableDetail.handleAddRow in Hsend.
  destruct tableId as [t'|]; [|destruct Hsend].
  destruct (Js.truthy t'); simpl in Hsend; [|destruct Hsend].
  destruct Hsend as [Hsend|[]].
  inversion Hsend; subst; clear Hsend.
  unfold Js.keys in Hk. apply in_map_iff in Hk as ([k' v] & Hfst & Hin).
  simpl in Hfst. subst k'.
  apply cleanData_in in Hin as (k0 & Hin & Hstrip & _).
  apply (in_map fst) in Hin. simpl in Hin.
  destruct (addRow_session_keys columns typed k0 Htyped Hin)
    as (col & Hcol & Hname).
  apply filter_In in Hcol as [Hcol Hid]. apply negb_true_iff in Hid.
  exists col. subst k0. auto.
Qed.

(** X3. The update body is built from the row without its [id] entry: each of
    its keys is the trimmed form of a key other than [id]. *)
Theorem update_row_drops_id (tableId : option string)
    (editRowData : TableDetail.EditRow) (t : string) (rid : Js.value)
    (body : Js.object Js.value) (k : string) :
  In (send (updateRowTablesTableIdDataRowIdPatch t rid body))
     (TableDetail.handleUpdateRow tableId editRowData) ->
  In k (Js.keys body) ->
  exists k0, In k0 (Js.keys (TableDetail.row_data editRowData))
             /\ k0 <> "id" /\ Utils.stripName k0 = k.
Proof.
  unfold TableDetail.handleUpdateRow. intros Hsend Hk.
  destruct tableId as [t'|]; [|destruct Hsend].
  destruct (negb (Js.truthy t')
            || negb (Js.truthy_value (TableDetail.row_id editRowData)));
    simpl in Hsend; [destruct Hsend|].
  destruct Hsend as [Hsend|[]].
  inversion Hsend; subst; clear Hsend.
  unfold Utils.stripObjectKeys, Js.assign_all in Hk.
  rewrite fold_left_over_map in Hk. simpl in Hk.
  apply (loop_in_keys (fun _ => true) stripped_key snd) in Hk.
  destruct Hk as [[]|(_ & [k0 v0] & Hin & _ & Hkey)]. simpl in Hkey.
  exists k0. apply (in_map fst) in Hin. simpl in Hin.
  apply (in_keys_rest (TableDetail.row_data editRowData) "id" k0) in Hin.
  tauto.
Qed.





(** C2. The quick data view of the tables list inserts a row whose body
    carries the identity column: for the default schema of a new table (a
    UUID [id] and one more column) its Add Row button sends [id: ''],
    whereas the Add Row form of the table page leaves [id] out. *)
Theorem quick_add_row_sends_identity_column :
  let schema :=
    [ ("id", {| entry_type := "uuid"; entry_nullable := false |});
      ("title", {| entry_type := "text"; entry_nullable := true |}) ] in
  let table :=
    {| Tables.table_id := "t1"; Tables.table_name := "notes";
       Tables.table_description := None; Tables.table_public := false;
       Tables.table_schema := schema |} in
  let id := {| TableDetail.col_name := "id"; TableDetail.col_type := "uuid";
               TableDetail.col_nullable := false |} in
  let title := {| TableDetail.col_name := "title";
                  TableDetail.col_type := "text";
                  TableDetail.col_nullable := true |} in
  Tables.handleAddRow (Some table) (Tables.table_schema table) =
  [send (insertRowTablesTableIdDataPost "t1"
           [("id", Js.Str ""); ("title", Js.Str "")])]
  /\ TableDetail.handleAddRow (Some "t1")
       (TableDetail.addRow_session [id; title] [(title, "hello")]) =
     [send (insertRowTablesTableIdDataPost "t1" [("title", Js.Str "hello")])].
Proof. split; reflexivity. Qed.




End RowBodies.

(** ** The tables list: sorting *)
Section TablesSort.
Import Api.

Lemma fetchTables_view (token : option string) (s : Tables.View) (n : Z) :
  let s' := fst (Tables.fetchTables token s n) in
  Tables.page s' = Tables.page s
  /\ Tables.searchQuery s' = Tables.searchQuery s
  /\ Tables.sortBy s' = Tables.sortBy s
  /\ Tables.sortOrder s' = Tables.sortOrder s.
Proof.
  unfold Tables.fetchTables.
  destruct (Js.truthy_opt token); simpl; [|auto].
  destruct (n =? 1)%Z; simpl; auto.
Qed.

(** Every request of [fetchTables] carries the filter of the state it was
    called in, and the offset of the page asked for. *)
Lemma fetchTables_requests (token : option string) (s : Tables.View) (n : Z)
    (r : request) :
  In (send r) (snd (Tables.fetchTables token s n)) ->
  r = readTablesTablesGet (Tables.list_query s n).
Proof.
  unfold Tables.fetchTables.
  destruct (Js.truthy_opt token); simpl; [|intros []].
  intros [H|[]]. inversion H. reflexivity.
Qed.

Lemma toggle_in (o : string) :
  In (if o =? "desc" then "asc" else "desc") ["asc"; "desc"].
Proof. destruct (o =? "desc"); simpl; auto. Qed.

Lemma refetch_sort_ok (token : option string) (s s' : Tables.View) :
  Tables.sort_ok s' -> Tables.sort_ok (fst (Tables.refetch token s s')).
Proof.
  unfold Tables.refetch, Tables.sort_ok.
  destruct (Tables.deps_changed s s'); [|auto].
  destruct (fetchTables_view token s' 1) as (_ & _ & -> & ->). auto.
Qed.

Lemma step_sort_ok (token : option string) (s : Tables.View)
    (e : Tables.event) :
  Tables.possible e -> Tables.sort_ok s ->
  Tables.sort_ok (fst (Tables.step token s e)).
Proof.
  intros He [Hby Hord].
  destruct e as [|append r|value| |value| |nearBottom|]; simpl.
  - unfold Tables.sort_ok.
    destruct (fetchTables_view token s 1) as (_ & _ & -> & ->). auto.
  - destruct r; split; assumption.
  - apply refetch_sort_ok. split; assumption.
  - apply refetch_sort_ok. split; assumption.
  - apply refetch_sort_ok. split; [exact He | assumption].
  - apply refetch_sort_ok. split; [assumption | apply toggle_in].
  - unfold Tables.handleScroll.
    destruct (nearBottom && Tables.hasMore s && negb (Tables.isLoadingMore s));
      [|split; assumption].
    unfold Tables.sort_ok.
    destruct (fetchTables_view token
                (Tables.setPage (Tables.page s + 1) s) (Tables.page s + 1))
      as (_ & _ & -> & ->). auto.
  - unfold Tables.sort_ok.
    destruct (fetchTables_view token (Tables.setPage 1 s) 1)
      as (_ & _ & -> & ->). auto.
Qed.

(** In every reachable state the sort field and the sort order are among
    the offered ones. *)
Lemma reachable_sort_ok (token : option string) (s : Tables.View) :
  Tables.reachable token s -> Tables.sort_ok s.
Proof.
  induction 1 as [|s e _ IH He].
  - split; simpl; auto.
  - apply step_sort_ok; assumption.
Qed.

(** The requests of a step carry the sort parameters of the state the step
    leads to. *)
Lemma step_requests_sort (token : option string) (s : Tables.View)
    (e : Tables.event) (r : request) :
  In (send r) (snd (Tables.step token s e)) ->
  exists q, r = readTablesTablesGet q
            /\ sort_by q = Tables.sortBy (fst (Tables.step token s e))
            /\ sort_order q = Tables.sortOrder (fst (Tables.step token s e)).
Proof.
  assert (F : forall s0 n,
             In (send r) (snd (Tables.fetchTables token s0 n)) ->
             exists q, r = readTablesTablesGet q
                       /\ sort_by q =
                          Tables.sortBy (fst (Tables.fetchTables token s0 n))
                       /\ sort_order q =
                          Tables.sortOrder
                            (fst (Tables.fetchTables token s0 n))).
  { intros s0 n Hin. apply fetchTables_requests in Hin.
    destruct (fetchTables_view token s0 n) as (_ & _ & -> & ->).
    exists (Tables.list_query s0 n). auto. }
  destruct e as [|append r0|value| |value| |nearBottom|]; simpl;
    try apply F; try (intros []);
    try (unfold Tables.refetch;
         match goal with
         | |- context [Tables.deps_changed ?a ?b] =>
             destruct (Tables.deps_changed a b); [apply F | intros []]
         end).
  unfold Tables.handleScroll.
  destruct (nearBottom && Tables.hasMore s && negb (Tables.isLoadingMore s));
    [apply F | intros []].
Qed.

(** C6. In every reachable state of the tables list, a list request
    carries a [sort_by] among [created_at], [updated_at] and [name] and a
    [sort_order] among [asc] and [desc]; and each of these six
    combinations is sent on some run of the page. *)
Theorem list_request_sort_is_whitelisted (token : option string) :
  (forall s e q,
     Tables.reachable token s -> Tables.possible e ->
     In (send (readTablesTablesGet q)) (snd (Tables.step token s e)) ->
     In (sort_by q) ["created_at"; "updated_at"; "name"]
     /\ In (sort_order q) ["asc"; "desc"])
  /\ (forall f o,
        Js.truthy_opt token = true ->
        In f ["created_at"; "updated_at"; "name"] ->
        In o ["asc"; "desc"] ->
        exists es q,
          Forall Tables.possible es
          /\ In (send (readTablesTablesGet q))
               (snd (Tables.run token Tables.initial es))
          /\ sort_by q = f /\ sort_order q = o).
Proof.
  split.
  - intros s e q Hs He Hin.
    destruct (step_requests_sort token s e _ Hin) as (q' & Hq & Hby & Hord).
    inversion Hq; subst q'. rewrite Hby, Hord.
    apply (step_sort_ok token s e He), (reachable_sort_ok token s Hs).
  - intros f o Htok Hf Ho.
    exists ([Tables.SortBySelected f] ++
            (if o =? "asc" then [Tables.ToggleSortOrder] else []) ++
            [Tables.Refresh])%list.
    exists {| skip := 0; limit := 50; search := None; sort_by := f;
              sort_order := o |}.
    split.
    + apply Forall_app. split; [constructor; [exact Hf | constructor]|].
      apply Forall_app. split; [destruct (o =? "asc")|];
        repeat constructor.
    + split; [|split; reflexivity].
      simpl in Hf, Ho.
      destruct Hf as [<-|[<-|[<-|[]]]]; destruct Ho as [<-|[<-|[]]];
        simpl; unfold Tables.refetch, Tables.fetchTables; simpl;
        rewrite ?Htok; simpl; auto 6.
Qed.

Lemma list_request_sort_is_whitelisted_witness :
  Tables.reachable (Some "token") Tables.initial
  /\ Tables.possible (Tables.SortBySelected "name")
  /\ In "name" ["created_at"; "updated_at"; "name"]
  /\ In "desc" ["asc"; "desc"].
Proof.
  split; [constructor|]. split; [simpl; auto|].
  apply (proj1 (list_request_sort_is_whitelisted (Some "token"))
           Tables.initial (Tables.SortBySelected "name")
           {| skip := 0; limit := 50; search := None; sort_by := "name";
              sort_order := "desc" |}).
  - constructor.
  - simpl. auto.
  - left. reflexivity.
Defined.

End TablesSort.

(** ** The list views: pages *)
Section ListPages.
Import Api.

(** Case analysis on every test of a goal about a step of a view. *)
Ltac split_tests :=
  repeat match goal with
         | |- context [if ?b then _ else _] => destruct b eqn:?
         | H : context [if ?b then _ else _] |- _ => destruct b eqn:?
         end.

Ltac solve_requests :=
  simpl in *;
  repeat match goal with
         | H : _ \/ _ |- _ => destruct H
         | H : False |- _ => destruct H
         | H : send _ = send _ |- _ => inversion H; clear H; subst
         end;
  simpl; auto.

Lemma tables_filter_change (token : option string) (s : Tables.View)
    (e : Tables.event) :
  Tables.changes_filter e = true ->
  let s' := fst (Tables.step token s e) in
  Tables.page s' = 1%Z
  /\ (forall r, In (send r) (snd (Tables.step token s e)) ->
        exists q, r = readTablesTablesGet q /\ skip q = 0%Z
                  /\ search q = Js.or_null (Tables.searchQuery s')
                  /\ sort_by q = Tables.sortBy s'
                  /\ sort_order q = Tables.sortOrder s')
  /\ (Js.truthy_opt token = true -> Tables.deps_changed s s' = true ->
      exists q, snd (Tables.step token s e) = [send (readTablesTablesGet q)])
  /\ (forall r, In (send r) (snd (Tables.handleScroll token s' true)) ->
        exists q, r = readTablesTablesGet q /\ skip q = Tables.PAGE_SIZE).
Proof.
  intros He.
  destruct e as [|append r0|value| |value| |nearBottom|];
    try discriminate He; clear He;
    cbv beta delta [Tables.step Tables.refetch Tables.fetchTables
                    Tables.handleScroll] iota zeta;
    split_tests; simpl; (split; [reflexivity|]).
  all: (split; [intros r Hin; solve_requests; eexists; eauto|]).
  all: (split; [intros Ht Hd; unfold Tables.deps_changed in *; simpl in *;
                try rewrite Ht in *; try discriminate; try congruence;
                eauto|]).
  all: intros r Hin; split_tests; solve_requests; eexists; eauto.
Qed.

Lemma users_filter_change (token : option string) (s : Users.View)
    (e : Users.event) :
  Users.changes_filter e = true ->
  let s' := fst (Users.step token s e) in
  Users.page s' = 1%Z
  /\ (forall r, In (send r) (snd (Users.step token s e)) ->
        exists q, r = readUsersUsersGet q /\ skip q = 0%Z
                  /\ search q = Js.or_null (Users.searchQuery s')
                  /\ sort_by q = Users.sortBy s'
                  /\ sort_order q = Users.sortOrder s')
  /\ (Js.truthy_opt token = true -> Users.deps_changed s s' = true ->
      exists q, snd (Users.step token s e) = [send (readUsersUsersGet q)])
  /\ (forall r, In (send r) (snd (Users.handleScroll token s' true)) ->
        exists q, r = readUsersUsersGet q /\ skip q = Users.PAGE_SIZE).
Proof.
  intros He.
  destruct e as [|append r0|value| |value| |nearBottom|];
    try discriminate He; clear He;
    cbv beta delta [Users.step Users.refetch Users.fetchUsers
                    Users.handleScroll] iota zeta;
    split_tests; simpl; (split; [reflexivity|]).
  all: (split; [intros r Hin; solve_requests; eexists; eauto|]).
  all: (split; [intros Ht Hd; unfold Users.deps_changed in *; simpl in *;
                try rewrite Ht in *; try discriminate; try congruence;
                eauto|]).
  all: intros r Hin; split_tests; solve_requests; eexists; eauto.
Qed.

Lemma table_detail_deps_same (s : TableDetail.View) :
  TableDetail.deps_changed s s = false.
Proof.
  unfold TableDetail.deps_changed.
  rewrite Z.eqb_refl, !String.eqb_refl.
  destruct (TableDetail.sortBy s); simpl; [rewrite String.eqb_refl|];
    reflexivity.
Qed.

Lemma table_detail_filter_change (token tableId : option string)
    (s : TableDetail.View) (e : TableDetail.event) :
  TableDetail.changes_filter e = true ->
  let s' := fst (TableDetail.step token tableId s e) in
  TableDetail.page s' = 1%Z
  /\ (forall r, In (send r) (snd (TableDetail.step token tableId s e)) ->
        exists t q, r = getTableDataTablesTableIdDataGet t q
                    /\ Api.page q = 1%Z
                    /\ data_search q = Js.or_null (TableDetail.searchQuery s')
                    /\ data_sort_order q = TableDetail.sortOrder s')
  /\ (forall t, token = Some t -> Js.truthy t = true ->
      forall i, tableId = Some i -> Js.truthy i = true ->
      TableDetail.table_loaded s = true ->
      TableDetail.deps_changed s s' = true ->
      exists q, snd (TableDetail.step token tableId s e) =
                [send (getTableDataTablesTableIdDataGet i q)])
  /\ (forall e' r, In e' [TableDetail.NextPage; TableDetail.Scroll true] ->
        In (send r) (snd (TableDetail.step token tableId s' e')) ->
        exists t q, r = getTableDataTablesTableIdDataGet t q
                    /\ Api.page q = 2%Z).
Proof.
  intros He.
  destruct e as [|total|value| |value| | | |nearBottom];
    try discriminate He; clear He;
    cbv beta delta [TableDetail.step TableDetail.fetchData] iota zeta;
    simpl; (split; [reflexivity|]).
  all: (split; [intros r Hin; destruct token, tableId; split_tests;
                solve_requests; do 2 eexists; eauto|]).
  all: (split; [intros t -> Ht i -> Hi Hl Hd; rewrite Hd, Hl, Ht, Hi; simpl;
                eauto|]).
  all: intros e' r [<-|[<-|[]]] Hin; simpl in Hin; destruct token, tableId;
    split_tests; solve_requests;
    try (rewrite table_detail_deps_same in *; discriminate);
    do 2 eexists; eauto.
Qed.

(** C9. In the row view, the tables list and the users list, every change
    of the search query (when the debounce timer fires, or on clearing),
    of the sort field or of the sort order sets the current page to 1 in
    the same update; the request that follows the change is issued with
    the new filter and the first page (offset 0), and the next page asked
    for after it is page 2, whatever the page was before the change. *)
Theorem filter_change_resets_page :
  (forall token tableId s e,
     TableDetail.changes_filter e = true ->
     let s' := fst (TableDetail.step token tableId s e) in
     TableDetail.page s' = 1%Z
     /\ (forall r, In (send r) (snd (TableDetail.step token tableId s e)) ->
           exists t q, r = getTableDataTablesTableIdDataGet t q
                       /\ Api.page q = 1%Z
                       /\ data_search q =
                          Js.or_null (TableDetail.searchQuery s')
                       /\ data_sort_order q = TableDetail.sortOrder s')
     /\ (forall t, token = Some t -> Js.truthy t = true ->
         forall i, tableId = Some i -> Js.truthy i = true ->
         TableDetail.table_loaded s = true ->
         TableDetail.deps_changed s s' = true ->
         exists q, snd (TableDetail.step token tableId s e) =
                   [send (getTableDataTablesTableIdDataGet i q)])
     /\ (forall e' r,
           In e' [TableDetail.NextPage; TableDetail.Scroll true] ->
           In (send r) (snd (TableDetail.step token tableId s' e')) ->
           exists t q, r = getTableDataTablesTableIdDataGet t q
                       /\ Api.page q = 2%Z))
  /\ (forall token s e,
        Tables.changes_filter e = true ->
        let s' := fst (Tables.step token s e) in
        Tables.page s' = 1%Z
        /\ (forall r, In (send r) (snd (Tables.step token s e)) ->
              exists q, r = readTablesTablesGet q /\ skip q = 0%Z
                        /\ search q = Js.or_null (Tables.searchQuery s')
                        /\ sort_by q = Tables.sortBy s'
                        /\ sort_order q = Tables.sortOrder s')
        /\ (Js.truthy_opt token = true -> Tables.deps_changed s s' = true ->
            exists q, snd (Tables.step token s e) =
                      [send (readTablesTablesGet q)])
        /\ (forall r,
              In (send r) (snd (Tables.handleScroll token s' true)) ->
              exists q, r = readTablesTablesGet q
                        /\ skip q = Tables.PAGE_SIZE))
  /\ (forall token s e,
        Users.changes_filter e = true ->
        let s' := fst (Users.step token s e) in
        Users.page s' = 1%Z
        /\ (forall r, In (send r) (snd (Users.step token s e)) ->
              exists q, r = readUsersUsersGet q /\ skip q = 0%Z
                        /\ search q = Js.or_null (Users.searchQuery s')
                        /\ sort_by q = Users.sortBy s'
                        /\ sort_order q = Users.sortOrder s')
        /\ (Js.truthy_opt token = true -> Users.deps_changed s s' = true ->
            exists q, snd (Users.step token s e) =
                      [send (readUsersUsersGet q)])
        /\ (forall r,
              In (send r) (snd (Users.handleScroll token s' true)) ->
              exists q, r = readUsersUsersGet q
                        /\ skip q = Users.PAGE_SIZE)).
Proof.
  split; [|split].
  - exact table_detail_filter_change.
  - exact tables_filter_change.
  - exact users_filter_change.
Qed.

Lemma filter_change_resets_page_witness :
  let s := Tables.setPage 4 Tables.initial in
  Tables.changes_filter (Tables.SearchDebounced "inv") = true
  /\ Tables.page s = 4%Z
  /\ Tables.page
       (fst (Tables.step (Some "token") s (Tables.SearchDebounced "inv")))
     = 1%Z.
Proof.
  intros s. split; [reflexivity|]. split; [reflexivity|].
  apply (proj1 (proj2 filter_change_resets_page) (Some "token") s
           (Tables.SearchDebounced "inv") eq_refl).
Defined.

End ListPages.

(** ** Pagination *)
Section Pagination.
Import Api.
Open Scope Z_scope.

Lemma ceil_div_bounds (a b : Z) :
  0 < b ->
  (DataTable.ceil_div a b - 1) * b < a <= DataTable.ceil_div a b * b.
Proof.
  intros Hb. unfold DataTable.ceil_div.
  pose proof (Z.div_mod a b ltac:(lia)) as D.
  pose proof (Z.mod_pos_bound a b Hb) as M.
  destruct (a mod b =? 0) eqn:E.
  - apply Z.eqb_eq in E. nia.
  - apply Z.eqb_neq in E. nia.
Qed.





(** The page of a full collection of [n] pages, and the one after it. *)
Lemma list_page_last_full {R : Type} (records : list R) (s : Tables.View)
    (n : Z) :
  1 <= n -> Z.of_nat (length records) = n * 50 ->
  length (Backend.list_page records (Tables.list_query s n)) = 50%nat
  /\ Backend.list_page records (Tables.list_query s (n + 1)) = [].
Proof.
  intros Hn Hlen. unfold Backend.list_page, Tables.list_query,
    Tables.PAGE_SIZE. cbn [limit skip]. split.
  - rewrite length_firstn, length_skipn. lia.
  - rewrite skipn_all2 by lia. apply firstn_nil.
Qed.

(** C8. After a successful fetch of a list page, in the tables list and in
    the users list, [hasMore] is true exactly when 50 records came back:
    it is true after a full page even when that page was the last one (a
    collection of [n * 50] records, whose page [n + 1] is empty), and
    false after any shorter page. *)
Theorem hasMore_iff_full_page :
  (forall append data s,
     Tables.hasMore
       (Tables.fetchTables_resolved append (Tables.Data data) s) = true
     <-> length data = 50%nat)
  /\ (forall append data s,
        Users.hasMore
          (Users.fetchUsers_resolved append (Users.Data data) s) = true
        <-> length data = 50%nat)
  /\ (forall (records : list Tables.TableRead) append s n,
        1 <= n -> Z.of_nat (length records) = n * 50 ->
        Tables.hasMore
          (Tables.fetchTables_resolved append
             (Tables.Data
                (Backend.list_page records (Tables.list_query s n))) s)
        = true
        /\ Backend.list_page records (Tables.list_query s (n + 1)) = [])
  /\ (forall append data s,
        (length data < 50)%nat ->
        Tables.hasMore
          (Tables.fetchTables_resolved append (Tables.Data data) s) = false)
  /\ (forall append data s,
        (length data < 50)%nat ->
        Users.hasMore
          (Users.fetchUsers_resolved append (Users.Data data) s) = false).
Proof.
  assert (T : forall append data s,
             Tables.hasMore
               (Tables.fetchTables_resolved append (Tables.Data data) s) =
             (Z.of_nat (length data) =? 50)) by reflexivity.
  assert (U : forall append data s,
             Users.hasMore
               (Users.fetchUsers_resolved append (Users.Data data) s) =
             (Z.of_nat (length data) =? 50)) by reflexivity.
  repeat apply conj.
  - intros append data s. rewrite T, Z.eqb_eq. lia.
  - intros append data s. rewrite U, Z.eqb_eq. lia.
  - intros records append s n Hn Hlen.
    destruct (list_page_last_full records s n Hn Hlen) as [Hfull Hnext].
    split; [|exact Hnext]. rewrite T, Hfull. reflexivity.
  - intros append data s H. rewrite T. apply Z.eqb_neq. lia.
  - intros append data s H. rewrite U. apply Z.eqb_neq. lia.
Qed.

Lemma hasMore_iff_full_page_witness :
  let table :=
    {| Tables.table_id := "t"; Tables.table_name := "notes";
       Tables.table_description := None; Tables.table_public := false;
       Tables.table_schema := [] |} in
  let records := repeat table 100 in
  1 <= 2 /\ Z.of_nat (length records) = 2 * 50
  /\ Tables.hasMore
       (Tables.fetchTables_resolved true
          (Tables.Data
             (Backend.list_page records
                (Tables.list_query Tables.initial 2))) Tables.initial)
     = true
  /\ Backend.list_page records (Tables.list_query Tables.initial 3) = [].
Proof.
  intros table records.
  split; [lia|]. split; [reflexivity|].
  apply (proj1 (proj2 (proj2 hasMore_iff_full_page)) records true
           Tables.initial 2); [lia | reflexivity].
Defined.






End Pagination.

(** * Further properties of the pages *)

(** ** The column and row forms of the table page *)
Section TableForms.
Import Api.

Lemma sanitising_forms_submit_normalised_name_witness :
  let price := {| TableDetail.col_name := "price";
                  TableDetail.col_type := "numeric";
                  TableDetail.col_nullable := true |} in
  Js.truthy "t1" = true
  /\ requests
       (TableDetail.handleAddColumn (Some "t1")
          (TableDetail.newColumn_onChange_name
             (TableDetail.initial_newColumn "text") "Unit Price ($)")) =
     [addColumnTablesTableIdColumnsPost "t1"
        {| name := "unitprice"; type := "text"; nullable := true;
           default := None |}]
  /\ requests
       (TableDetail.handleUpdateColumn (Some "t1")
          (TableDetail.editColumn_onChange_name
             (TableDetail.openEditColumnModal price) "Unit Price ($)")) =
     [updateColumnTablesTableIdColumnsColumnNamePatch "t1" "price"
        {| new_name := Some "unitprice"; upd_type := "numeric";
           upd_nullable := true |}]
  /\ requests
       (TableDetail.handleUpdateColumn (Some "t1")
          (TableDetail.editColumn_onChange_name
             (TableDetail.openEditColumnModal price) "PRICE ")) =
     [updateColumnTablesTableIdColumnsColumnNamePatch "t1" "price"
        {| new_name := None; upd_type := "numeric";
           upd_nullable := true |}].
Proof.
  intros price. split; [reflexivity|]. split; [|split].
  - exact (proj1 (sanitising_forms_submit_normalised_name "Unit Price ($)")
             "t1" (TableDetail.initial_newColumn "text") eq_refl).
  - exact (proj1 (proj2 (sanitising_forms_submit_normalised_name
                           "Unit Price ($)"))
             "t1" (TableDetail.openEditColumnModal price) eq_refl).
  - exact (proj1 (proj2 (sanitising_forms_submit_normalised_name "PRICE "))
             "t1" (TableDetail.openEditColumnModal price) eq_refl).
Defined.

Lemma add_row_form_skips_uuid_id_witness :
  let id := {| TableDetail.col_name := "Id"; TableDetail.col_type := "UUID";
               TableDetail.col_nullable := false |} in
  let title := {| TableDetail.col_name := "title";
                  TableDetail.col_type := "text";
                  TableDetail.col_nullable := true |} in
  exists col,
    In col [id; title] /\ TableDetail.is_uuid_id col = false
    /\ Utils.stripName (TableDetail.col_name col) = "title".
Proof.
  intros id title.
  apply (add_row_form_skips_uuid_id [id; title] [(title, "hello")]
           (Some "t1") "t1" [("title", Js.Str "hello")] "title").
  - repeat constructor.
  - left. reflexivity.
  - left. reflexivity.
Defined.

Lemma update_row_drops_id_witness :
  let row := [("id", Js.Str "r1"); ("title", Js.Str "old")] in
  exists k0,
    In k0 (Js.keys (TableDetail.row_data (TableDetail.openEditRowModal row)))
    /\ k0 <> "id" /\ Utils.stripName k0 = "title".
Proof.
  intros row.
  apply (update_row_drops_id (Some "t1") (TableDetail.openEditRowModal row)
           "t1" (Js.Str "r1") [("title", Js.Str "old")] "title").
  - left. reflexivity.
  - left. reflexivity.
Defined.

Lemma rest_define_same {V : Type} (o : Js.object V) (k : string) (v : V) :
  Js.rest k (Js.define k v o) = Js.rest k o.
Proof.
  unfold Js.rest. induction o as [|[k0 v0] r IH]; simpl.
  - rewrite String.eqb_refl. reflexivity.
  - destruct (k0 =? k) eqn:E; simpl.
    + rewrite String.eqb_refl. reflexivity.
    + rewrite E. simpl. rewrite IH. reflexivity.
Qed.

(** X4. The Edit Row form renders an input for every column, [id]
    included, but what is typed into the [id] input changes nothing of the
    update: neither the row addressed nor the body.  A row without a
    truthy [id] cannot be updated at all: no request is issued. *)
Theorem edit_row_id_input_is_ignored :
  (forall tableId editRowData col value,
     TableDetail.col_name col = "id" ->
     TableDetail.handleUpdateRow tableId
       (TableDetail.editRowData_onChange editRowData col value) =
     TableDetail.handleUpdateRow tableId editRowData)
  /\ (forall tableId row typed,
        match Js.get "id" row with
        | Some v => Js.truthy_value v = false
        | None => True
        end ->
        TableDetail.handleUpdateRow tableId
          (fold_left
             (fun er e => TableDetail.editRowData_onChange er (fst e) (snd e))
             typed (TableDetail.openEditRowModal row)) = []).
Proof.
  split.
  - intros tableId er col value Hid.
    unfold TableDetail.handleUpdateRow, TableDetail.editRowData_onChange.
    simpl. rewrite Hid, rest_define_same. reflexivity.
  - intros tableId row typed Hid.
    assert (Hrow : Js.truthy_value
                     (TableDetail.row_id (TableDetail.openEditRowModal row))
                   = false).
    { unfold TableDetail.openEditRowModal. simpl.
      destruct (Js.get "id" row); [exact Hid | reflexivity]. }
    revert Hrow. generalize (TableDetail.openEditRowModal row).
    induction typed as [|[col value] typed IH]; intros er Hrow; simpl.
    + unfold TableDetail.handleUpdateRow.
      destruct tableId; [|reflexivity].
      rewrite Hrow. simpl. rewrite orb_true_r. reflexivity.
    + apply IH. exact Hrow.
Qed.

Lemma edit_row_id_input_is_ignored_witness :
  let er := TableDetail.openEditRowModal
              [("id", Js.Str "r1"); ("title", Js.Str "old")] in
  let id := {| TableDetail.col_name := "id"; TableDetail.col_type := "uuid";
               TableDetail.col_nullable := false |} in
  TableDetail.col_name id = "id"
  /\ TableDetail.handleUpdateRow (Some "t1")
       (TableDetail.editRowData_onChange er id "r2") =
     [send (updateRowTablesTableIdDataRowIdPatch "t1" (Js.Str "r1")
              [("title", Js.Str "old")])].
Proof.
  intros er id. split; [reflexivity|].
  rewrite (proj1 edit_row_id_input_is_ignored (Some "t1") er id "r2"
             eq_refl).
  reflexivity.
Defined.

(** X5. Opening the Edit Column or the Edit Table modal and submitting it
    as it is renames nothing: when the current name is non-empty and
    trimming leaves it alone, the request carries no new name (and the
    type, nullability or visibility of the entity as they were). *)
Theorem unchanged_edit_sends_no_rename :
  (forall t col,
     Js.truthy t = true ->
     Utils.stripName (TableDetail.col_name col) = TableDetail.col_name col ->
     TableDetail.col_name col <> "" ->
     TableDetail.handleUpdateColumn (Some t)
       (TableDetail.openEditColumnModal col) =
     [send (updateColumnTablesTableIdColumnsColumnNamePatch t
              (TableDetail.col_name col)
              {| new_name := None;
                 upd_type := TableDetail.col_type col;
                 upd_nullable := TableDetail.col_nullable col |})])
  /\ (forall table,
        Utils.stripName (Tables.table_name table) = Tables.table_name table ->
        Tables.table_name table <> "" ->
        exists description,
          Tables.handleEditTable (Some table) (Tables.openEditModal table) =
          [send (updateTableTablesTableIdPatch (Tables.table_id table)
                   {| update_name := None;
                      update_description := description;
                      update_public := Tables.table_public table |})]).
Proof.
  split.
  - intros t col Ht Hs Hne.
    unfold TableDetail.handleUpdateColumn, TableDetail.openEditColumnModal.
    rewrite Ht. simpl. rewrite Hs.
    apply truthy_nonempty in Hne. rewrite Hne. simpl.
    rewrite String.eqb_refl. reflexivity.
  - intros table Hs Hne.
    unfold Tables.handleEditTable, Tables.openEditModal. simpl.
    rewrite Hs. apply truthy_nonempty in Hne. rewrite Hne. simpl.
    rewrite String.eqb_refl. eexists. reflexivity.
Qed.

Lemma unchanged_edit_sends_no_rename_witness :
  let col := {| TableDetail.col_name := "title";
                TableDetail.col_type := "text";
                TableDetail.col_nullable := true |} in
  Js.truthy "t1" = true
  /\ Utils.stripName (TableDetail.col_name col) = TableDetail.col_name col
  /\ TableDetail.col_name col <> ""
  /\ TableDetail.handleUpdateColumn (Some "t1")
       (TableDetail.openEditColumnModal col) =
     [send (updateColumnTablesTableIdColumnsColumnNamePatch "t1" "title"
              {| new_name := None; upd_type := "text";
                 upd_nullable := true |})].
Proof.
  intros col. split; [reflexivity|]. split; [reflexivity|].
  split; [discriminate|].
  apply (proj1 unchanged_edit_sends_no_rename "t1" col);
    [reflexivity | reflexivity | discriminate].
Defined.

End TableForms.

(** ** The column rows of the Create Table form *)
Section CreateFormRows.
Import Api.

Lemma filter_with_index_removes {A : Type} (l : list A) (k index : nat) :
  Tables.filter_with_index (fun _ i => negb (i =? index)%nat) k l =
  if (index <? k)%nat then l
  else (firstn (index - k) l ++ skipn (S (index - k)) l)%list.
Proof.
  revert k. induction l as [|x r IH]; intros k; simpl.
  - destruct (index <? k)%nat; [reflexivity|].
    rewrite firstn_nil. reflexivity.
  - rewrite IH. destruct (k =? index)%nat eqn:E; simpl.
    + apply Nat.eqb_eq in E. subst k.
      rewrite (proj2 (Nat.ltb_lt index (S index))) by lia.
      rewrite Nat.ltb_irrefl, Nat.sub_diag. reflexivity.
    + apply Nat.eqb_neq in E.
      destruct (index <? k)%nat eqn:L.
      * apply Nat.ltb_lt in L.
        rewrite (proj2 (Nat.ltb_lt index (S k))) by lia. reflexivity.
      * apply Nat.ltb_ge in L.
        rewrite (proj2 (Nat.ltb_ge index (S k))) by lia.
        replace (index - k)%nat with (S (index - S k)) by lia.
        reflexivity.
Qed.

Lemma filter_with_index_removes_at {A : Type} (l : list A) (index : nat) :
  Tables.filter_with_index (fun _ i => negb (i =? index)%nat) 0 l =
  (firstn index l ++ skipn (S index) l)%list.
Proof.
  rewrite filter_with_index_removes.
  change (index <? 0)%nat with false. cbv iota.
  rewrite Nat.sub_0_r. reflexivity.
Qed.

Lemma set_column_length (index : nat) (f : Tables.column_field)
    (columns : list Tables.ColumnForm) :
  length (Tables.set_column index f columns) = length columns.
Proof.
  revert index. induction columns as [|c r IH]; intros [|i]; simpl; auto.
Qed.

(** X6. The remove button of a column row takes out exactly that row: the
    rows before and after it stay, in order, and the rest of the form is
    untouched; an index beyond the rows removes nothing; adding a row and
    removing it again gives the form back. *)
Theorem remove_column_takes_out_one_row (createForm : Tables.CreateForm) :
  (forall index,
     (index < length (Tables.form_columns createForm))%nat ->
     Tables.form_columns (Tables.handleRemoveColumn createForm index) =
     (firstn index (Tables.form_columns createForm)
      ++ skipn (S index) (Tables.form_columns createForm))%list
     /\ S (length (Tables.form_columns
                     (Tables.handleRemoveColumn createForm index))) =
        length (Tables.form_columns createForm))
  /\ (forall index,
        (length (Tables.form_columns createForm) <= index)%nat ->
        Tables.handleRemoveColumn createForm index = createForm)
  /\ Tables.handleRemoveColumn (Tables.handleAddColumn createForm)
       (length (Tables.form_columns createForm)) = createForm
  /\ (forall index,
        Tables.form_name (Tables.handleRemoveColumn createForm index) =
        Tables.form_name createForm
        /\ Tables.form_description
             (Tables.handleRemoveColumn createForm index) =
           Tables.form_description createForm
        /\ Tables.form_public (Tables.handleRemoveColumn createForm index) =
           Tables.form_public createForm).
Proof.
  destruct createForm as [n d p cols]. unfold Tables.handleRemoveColumn.
  cbn [Tables.form_name Tables.form_description Tables.form_public
       Tables.form_columns Tables.handleAddColumn].
  repeat apply conj.
  - intros index Hi. rewrite filter_with_index_removes_at.
    split; [reflexivity|].
    rewrite length_app, length_firstn, length_skipn. lia.
  - intros index Hi. rewrite filter_with_index_removes_at.
    rewrite firstn_all2, skipn_all2 by lia.
    rewrite app_nil_r. reflexivity.
  - rewrite filter_with_index_removes_at.
    rewrite firstn_app, Nat.sub_diag, firstn_all.
    rewrite skipn_all2 by (rewrite length_app; simpl; lia).
    simpl. rewrite !app_nil_r. reflexivity.
  - intros index. auto.
Qed.

Lemma remove_column_takes_out_one_row_witness :
  let createForm :=
    Tables.handleColumnChange
      (Tables.handleAddColumn
         (Tables.handleAddColumn Tables.initial_createForm))
      1 (Tables.field_name "title") in
  (0 < length (Tables.form_columns createForm))%nat
  /\ map Tables.column_name
       (Tables.form_columns (Tables.handleRemoveColumn createForm 0)) =
     ["title"; ""].
Proof.
  intros createForm. split; [simpl; lia|].
  rewrite (proj1 (proj1 (remove_column_takes_out_one_row createForm) 0%nat
                    ltac:(simpl; lia))).
  reflexivity.
Defined.

Lemma form_reachable_has_columns (createForm : Tables.CreateForm) :
  Tables.form_reachable createForm ->
  (1 <= length (Tables.form_columns createForm))%nat.
Proof.
  induction 1 as [|f e _ IH He]; [simpl; lia|].
  destruct e as [v|v|v| |index|index fv]; simpl; try exact IH.
  - rewrite length_app. simpl. lia.
  - destruct He as [Hmany Hi].
    rewrite filter_with_index_removes_at.
    rewrite length_app, length_firstn, length_skipn. lia.
  - rewrite set_column_length. exact IH.
Qed.

Lemma set_length_le {V : Type} (o : Js.object V) (k : string) (v : V) :
  (length (Js.set k v o) <= S (length o))%nat.
Proof.
  destruct (set_cases o k v) as [[E _]|[E _]]; rewrite E; [|lia].
  clear E. induction o as [|[k0 v0] r IH]; simpl; [lia|].
  destruct (k0 =? k); simpl; lia.
Qed.

(** X7. However the rows of the Create Table modal are added, changed and
    removed, the form keeps at least one column row.  A create call never
    carries more schema entries than the form has rows, and its schema is
    empty only in the case where every row is named [__proto__], the one
    name whose assignment stores no entry. *)
Theorem create_form_keeps_a_column (createForm : Tables.CreateForm) :
  Tables.form_reachable createForm ->
  Tables.form_columns createForm <> []
  /\ forall body,
       In (send (createTableTablesPost body))
          (Tables.handleCreateTable createForm) ->
       (length (create_schema body)
        <= length (Tables.form_columns createForm))%nat
       /\ (create_schema body = [] <->
           Forall (fun col =>
                     Utils.stripName (Tables.column_name col) = "__proto__")
             (Tables.form_columns createForm)).
Proof.
  intros Hr. pose proof (form_reachable_has_columns createForm Hr) as Hlen.
  split; [intros E; rewrite E in Hlen; simpl in Hlen; lia|].
  intros body Hin. unfold Tables.handleCreateTable in Hin.
  rewrite build_schema_loop in Hin.
  destruct (negb (Js.truthy (Utils.stripName (Tables.form_name createForm))));
    [destruct Hin as [Hin|[]]; discriminate|].
  destruct (forallb _ (Tables.form_columns createForm));
    [|destruct Hin as [Hin|[]]; discriminate].
  destruct Hin as [Hin|[]]. inversion Hin; subst body; clear Hin. simpl.
  clear Hlen Hr. generalize (Tables.form_columns createForm). intros l.
  pose proof (fun k =>
                loop_in_keys (fun _ => true)
                  (fun col => Utils.stripName (Tables.column_name col))
                  (fun col => {| entry_type := Tables.column_type col;
                                 entry_nullable :=
                                   Tables.column_nullable col |})
                  l [] k) as Hkeys.
  simpl in Hkeys. split.
  - clear Hkeys.
    enough (G : forall acc : Js.object SchemaEntry,
               (length
                  (fold_left
                     (fun acc col =>
                        Js.set
                          (Utils.stripName (Tables.column_name col))
                          {| entry_type := Tables.column_type col;
                             entry_nullable :=
                               Tables.column_nullable col |} acc) l acc)
                <= length acc + length l)%nat) by apply (G []).
    induction l as [|c r IH]; intros acc; simpl; [lia|].
    eapply Nat.le_trans; [apply IH|].
    pose proof (set_length_le acc
                  (Utils.stripName (Tables.column_name c))
                  {| entry_type := Tables.column_type c;
                     entry_nullable := Tables.column_nullable c |}).
    lia.
  - split.
    + intros Hnil. apply Forall_forall. intros c Hc.
      destruct (String.string_dec
                  (Utils.stripName (Tables.column_name c)) "__proto__")
        as [E|N]; [exact E|].
      exfalso.
      assert (Hk : In (Utils.stripName (Tables.column_name c))
                     (Js.keys
                        (fold_left
                           (fun acc col =>
                              Js.set
                                (Utils.stripName (Tables.column_name col))
                                {| entry_type := Tables.column_type col;
                                   entry_nullable :=
                                     Tables.column_nullable col |} acc)
                           l []))).
      { apply Hkeys. right. split; [exact N|]. exists c. auto. }
      rewrite Hnil in Hk. destruct Hk.
    + intros Hall. rewrite Forall_forall in Hall.
      revert Hkeys. generalize (fold_left
                  (fun (acc : Js.object SchemaEntry) col =>
                     Js.set
                       (Utils.stripName (Tables.column_name col))
                       {| entry_type := Tables.column_type col;
                          entry_nullable :=
                            Tables.column_nullable col |} acc)
                  l []).
      intros [|[k v] r] Hkeys; [reflexivity|]. exfalso.
      destruct (proj1 (Hkeys k) (or_introl eq_refl))
        as [[]|(N & c & Hc & _ & Hk)].
      apply N. rewrite <- Hk. apply Hall, Hc.
Qed.

Lemma create_form_keeps_a_column_witness :
  Tables.form_reachable
    (Tables.form_step Tables.initial_createForm (Tables.NameTyped "notes"))
  /\ Tables.form_columns
       (Tables.form_step Tables.initial_createForm
          (Tables.NameTyped "notes")) <> [].
Proof.
  assert (H : Tables.form_reachable
                (Tables.form_step Tables.initial_createForm
                   (Tables.NameTyped "notes")))
    by (constructor; [constructor | exact I]).
  split; [exact H|].
  apply (create_form_keeps_a_column _ H).
Defined.

End CreateFormRows.

(** ** The users list: sorting *)
Section UsersSort.
Import Api.

Lemma fetchUsers_view (token : option string) (s : Users.View) (n : Z) :
  let s' := fst (Users.fetchUsers token s n) in
  Users.page s' = Users.page s
  /\ Users.searchQuery s' = Users.searchQuery s
  /\ Users.sortBy s' = Users.sortBy s
  /\ Users.sortOrder s' = Users.sortOrder s.
Proof.
  unfold Users.fetchUsers.
  destruct (Js.truthy_opt token); simpl; [|auto].
  destruct (n =? 1)%Z; simpl; auto.
Qed.

(** Every request of [fetchUsers] carries the filter of the state it was
    called in, and the offset of the page asked for. *)
Lemma fetchUsers_requests (token : option string) (s : Users.View) (n : Z)
    (r : request) :
  In (send r) (snd (Users.fetchUsers token s n)) ->
  r = readUsersUsersGet (Users.list_query s n).
Proof.
  unfold Users.fetchUsers.
  destruct (Js.truthy_opt token); simpl; [|intros []].
  intros [H|[]]. inversion H. reflexivity.
Qed.

Lemma users_toggle_in (o : string) :
  In (if o =? "desc" then "asc" else "desc") ["asc"; "desc"].
Proof. destruct (o =? "desc"); simpl; auto. Qed.

Lemma users_refetch_sort_ok (token : option string) (s s' : Users.View) :
  Users.sort_ok s' -> Users.sort_ok (fst (Users.refetch token s s')).
Proof.
  unfold Users.refetch, Users.sort_ok.
  destruct (Users.deps_changed s s'); [|auto].
  destruct (fetchUsers_view token s' 1) as (_ & _ & -> & ->). auto.
Qed.

Lemma users_step_sort_ok (token : option string) (s : Users.View)
    (e : Users.event) :
  Users.possible e -> Users.sort_ok s ->
  Users.sort_ok (fst (Users.step token s e)).
Proof.
  intros He [Hby Hord].
  destruct e as [|append r|value| |value| |nearBottom|]; simpl.
  - unfold Users.sort_ok.
    destruct (fetchUsers_view token s 1) as (_ & _ & -> & ->). auto.
  - destruct r; split; assumption.
  - apply users_refetch_sort_ok. split; assumption.
  - apply users_refetch_sort_ok. split; assumption.
  - apply users_refetch_sort_ok. split; [exact He | assumption].
  - apply users_refetch_sort_ok. split; [assumption | apply users_toggle_in].
  - unfold Users.handleScroll.
    destruct (nearBottom && Users.hasMore s && negb (Users.isLoadingMore s));
      [|split; assumption].
    unfold Users.sort_ok.
    destruct (fetchUsers_view token
                (Users.setPage (Users.page s + 1) s) (Users.page s + 1))
      as (_ & _ & -> & ->). auto.
  - unfold Users.sort_ok.
    destruct (fetchUsers_view token (Users.setPage 1 s) 1)
      as (_ & _ & -> & ->). auto.
Qed.

(** In every reachable state of the users list the sort field and the sort
    order are among the offered ones. *)
Lemma users_reachable_sort_ok (token : option string) (s : Users.View) :
  Users.reachable token s -> Users.sort_ok s.
Proof.
  induction 1 as [|s e _ IH He].
  - split; simpl; auto.
  - apply users_step_sort_ok; assumption.
Qed.

(** The requests of a step carry the sort parameters of the state the step
    leads to. *)
Lemma users_step_requests_sort (token : option string) (s : Users.View)
    (e : Users.event) (r : request) :
  In (send r) (snd (Users.step token s e)) ->
  exists q, r = readUsersUsersGet q
            /\ sort_by q = Users.sortBy (fst (Users.step token s e))
            /\ sort_order q = Users.sortOrder (fst (Users.step token s e)).
Proof.
  assert (F : forall s0 n,
             In (send r) (snd (Users.fetchUsers token s0 n)) ->
             exists q, r = readUsersUsersGet q
                       /\ sort_by q =
                          Users.sortBy (fst (Users.fetchUsers token s0 n))
                       /\ sort_order q =
                          Users.sortOrder
                            (fst (Users.fetchUsers token s0 n))).
  { intros s0 n Hin. apply fetchUsers_requests in Hin.
    destruct (fetchUsers_view token s0 n) as (_ & _ & -> & ->).
    exists (Users.list_query s0 n). auto. }
  destruct e as [|append r0|value| |value| |nearBottom|]; simpl;
    try apply F; try (intros []);
    try (unfold Users.refetch;
         match goal with
         | |- context [Users.deps_changed ?a ?b] =>
             destruct (Users.deps_changed a b); [apply F | intros []]
         end).
  unfold Users.handleScroll.
  destruct (nearBottom && Users.hasMore s && negb (Users.isLoadingMore s));
    [apply F | intros []].
Qed.

(** X8. In every reachable state of the users list, a list request
    carries a [sort_by] among [created_at], [email], [first_name] and
    [last_name] and a [sort_order] among [asc] and [desc]; each of the
    eight combinations is sent on some run of the page. *)
Theorem users_request_sort_is_whitelisted (token : option string) :
  (forall s e q,
     Users.reachable token s -> Users.possible e ->
     In (send (readUsersUsersGet q)) (snd (Users.step token s e)) ->
     In (sort_by q) ["created_at"; "email"; "first_name"; "last_name"]
     /\ In (sort_order q) ["asc"; "desc"])
  /\ (forall f o,
        Js.truthy_opt token = true ->
        In f ["created_at"; "email"; "first_name"; "last_name"] ->
        In o ["asc"; "desc"] ->
        exists es q,
          Forall Users.possible es
          /\ In (send (readUsersUsersGet q))
               (snd (Users.run token Users.initial es))
          /\ sort_by q = f /\ sort_order q = o).
Proof.
  split.
  - intros s e q Hs He Hin.
    destruct (users_step_requests_sort token s e _ Hin)
      as (q' & Hq & Hby & Hord).
    inversion Hq; subst q'. rewrite Hby, Hord.
    apply (users_step_sort_ok token s e He),
      (users_reachable_sort_ok token s Hs).
  - intros f o Htok Hf Ho.
    exists ([Users.SortBySelected f] ++
            (if o =? "asc" then [Users.ToggleSortOrder] else []) ++
            [Users.Refresh])%list.
    exists {| skip := 0; limit := 50; search := None; sort_by := f;
              sort_order := o |}.
    split.
    + apply Forall_app. split; [constructor; [exact Hf | constructor]|].
      apply Forall_app. split; [destruct (o =? "asc")|];
        repeat constructor.
    + split; [|split; reflexivity].
      simpl in Hf, Ho.
      destruct Hf as [<-|[<-|[<-|[<-|[]]]]]; destruct Ho as [<-|[<-|[]]];
        simpl; unfold Users.refetch, Users.fetchUsers; simpl;
        rewrite ?Htok; simpl; auto 6.
Qed.

Lemma users_request_sort_is_whitelisted_witness :
  Users.reachable (Some "token") Users.initial
  /\ Users.possible (Users.SortBySelected "email")
  /\ In "email" ["created_at"; "email"; "first_name"; "last_name"]
  /\ In "desc" ["asc"; "desc"].
Proof.
  split; [constructor|]. split; [simpl; auto|].
  apply (proj1 (users_request_sort_is_whitelisted (Some "token"))
           Users.initial (Users.SortBySelected "email")
           {| skip := 0; limit := 50; search := None; sort_by := "email";
              sort_order := "desc" |}).
  - constructor.
  - simpl. auto.
  - left. reflexivity.
Defined.

End UsersSort.

(** ** The tables list: scrolling *)
Section TablesScroll.
Import Api.

Lemma fetchTables_page (token : option string) (s : Tables.View) (n : Z) :
  Tables.page (fst (Tables.fetchTables token s n)) = Tables.page s.
Proof. apply fetchTables_view. Qed.

Lemma firstn_then_firstn {A : Type} (a b : nat) (l : list A) :
  (firstn a l ++ firstn b (skipn a l))%list = firstn (a + b) l.
Proof.
  revert l. induction a as [|a IH]; intros l; simpl; [reflexivity|].
  destruct l as [|x l]; simpl.
  - rewrite firstn_nil. reflexivity.
  - rewrite IH. reflexivity.
Qed.

Lemma answered_fetch (records : list Tables.TableRead) (append : bool)
    (token : option string) (s : Tables.View) (n : Z) :
  Js.truthy_opt token = true ->
  Scrolling.answered records append (Tables.fetchTables token s n) =
  Tables.fetchTables_resolved append
    (Tables.Data (Backend.list_page records (Tables.list_query s n)))
    (fst (Tables.fetchTables token s n)).
Proof.
  intros Ht. unfold Scrolling.answered, Tables.fetchTables. rewrite Ht.
  reflexivity.
Qed.

Lemma fetchTables_tables (token : option string) (s : Tables.View) (n : Z) :
  Tables.tables (fst (Tables.fetchTables token s n)) = Tables.tables s.
Proof.
  unfold Tables.fetchTables.
  destruct (Js.truthy_opt token); simpl; [|reflexivity].
  destruct (n =? 1)%Z; reflexivity.
Qed.

Lemma list_page_query (records : list Tables.TableRead) (s : Tables.View)
    (k : nat) :
  Backend.list_page records (Tables.list_query s (Z.of_nat k + 1)) =
  firstn 50 (skipn (50 * k) records).
Proof.
  unfold Backend.list_page, Tables.list_query, Tables.PAGE_SIZE.
  cbn [limit skip].
  replace (Z.to_nat ((Z.of_nat k + 1 - 1) * 50)) with (50 * k)%nat by lia.
  reflexivity.
Qed.

End TablesScroll.

(** ** The tables list against the list endpoint *)
Section TablesLoad.
Import Api.

Lemma resolved_fields (append : bool) (data : list Tables.TableRead)
    (s : Tables.View) :
  let s' := Tables.fetchTables_resolved append (Tables.Data data) s in
  Tables.isLoadingMore s' = false /\ Tables.loading s' = false
  /\ Tables.tables s' = (if append then Tables.tables s ++ data else data)%list
  /\ Tables.hasMore s' = (length data =? 50)%nat
  /\ Tables.page s' = Tables.page s.
Proof.
  simpl. repeat split.
  unfold Tables.PAGE_SIZE.
  destruct (length data =? 50)%nat eqn:E.
  - apply Nat.eqb_eq in E. rewrite E. reflexivity.
  - apply Nat.eqb_neq in E. apply Z.eqb_neq. lia.
Qed.

Lemma full_page_test (a n : nat) :
  (Nat.min 50 (n - a) =? 50)%nat = (a + 50 <=? n)%nat.
Proof.
  destruct (a + 50 <=? n)%nat eqn:E.
  - apply Nat.leb_le in E. apply Nat.eqb_eq. lia.
  - apply Nat.leb_gt in E. apply Nat.eqb_neq. lia.
Qed.

Lemma mount_loaded (token : option string)
    (records : list Tables.TableRead) :
  Js.truthy_opt token = true ->
  Scrolling.loaded records 0
    (Scrolling.answered records false
       (Tables.fetchTables token Tables.initial 1)).
Proof.
  intros Ht. rewrite (answered_fetch records false token _ 1 Ht).
  destruct (resolved_fields false
              (Backend.list_page records
                 (Tables.list_query Tables.initial 1))
              (fst (Tables.fetchTables token Tables.initial 1)))
    as (H1 & H2 & H3 & H4 & H5).
  unfold Scrolling.loaded. rewrite H1, H2, H3, H4, H5, fetchTables_page.
  change 1%Z with (Z.of_nat 0 + 1)%Z at 1 2.
  rewrite list_page_query.
  repeat split.
  rewrite length_firstn, length_skipn, full_page_test. reflexivity.
Qed.

Lemma scroll_loaded (token : option string)
    (records : list Tables.TableRead) (k : nat) (s : Tables.View) :
  Js.truthy_opt token = true ->
  Scrolling.loaded records k s ->
  Scrolling.loaded records (S k)
    (Scrolling.answered records true (Tables.handleScroll token s true)).
Proof.
  intros Ht (Hmore & Hload & Htab & Hhas & Hpage).
  unfold Tables.handleScroll. rewrite Hmore. simpl.
  destruct (Tables.hasMore s) eqn:M; simpl.
  - specialize (Hpage eq_refl). symmetry in Hhas. apply Nat.leb_le in Hhas.
    rewrite (answered_fetch records true token _ _ Ht).
    destruct (resolved_fields true
                (Backend.list_page records
                   (Tables.list_query
                      (Tables.setPage (Tables.page s + 1) s)
                      (Tables.page s + 1)))
                (fst (Tables.fetchTables token
                        (Tables.setPage (Tables.page s + 1) s)
                        (Tables.page s + 1))))
      as (H1 & H2 & H3 & H4 & H5).
    unfold Scrolling.loaded.
    rewrite H1, H2, H3, H4, H5, fetchTables_tables, fetchTables_page.
    simpl Tables.tables. simpl Tables.page. rewrite Hpage.
    replace (Z.of_nat k + 1 + 1)%Z with (Z.of_nat (S k) + 1)%Z by lia.
    rewrite list_page_query.
    replace (50 * S k)%nat with (50 * (k + 1))%nat by lia.
    rewrite Htab, firstn_then_firstn.
    replace (50 * (k + 1) + 50)%nat with (50 * (S k + 1))%nat by lia.
    repeat split.
    rewrite length_firstn, length_skipn, full_page_test.
    f_equal. lia.
  - unfold Scrolling.answered. simpl.
    symmetry in Hhas. apply Nat.leb_gt in Hhas.
    unfold Scrolling.loaded. rewrite Hmore, Hload, Htab, M.
    repeat split.
    + rewrite !firstn_all2 by lia. reflexivity.
    + symmetry. apply Nat.leb_gt. lia.
    + discriminate.
Qed.

Lemma scroll_n_loaded (token : option string)
    (records : list Tables.TableRead) (n k : nat) (s : Tables.View) :
  Js.truthy_opt token = true ->
  Scrolling.loaded records k s ->
  Scrolling.loaded records (k + n) (Scrolling.scroll token records n s).
Proof.
  intros Ht. revert k s. induction n as [|n IH]; intros k s H; simpl.
  - rewrite Nat.add_0_r. exact H.
  - replace (k + S n)%nat with (S k + n)%nat by lia.
    apply IH, scroll_loaded; assumption.
Qed.

(** X10. Against a list endpoint that pages through [records], mounting
    the tables list and scrolling to the bottom [n] times, each call
    answered before the next scroll, leaves in the grid the first
    [50 * (n + 1)] records, in order and without repetition, with nothing
    pending; [hasMore] is true exactly while all the pages so far were
    full.  So once [50 * (n + 1)] exceeds the number of records the grid
    holds the whole collection and further scrolls request nothing. *)
Theorem infinite_scroll_loads_the_collection (token : option string)
    (records : list Tables.TableRead) (n : nat) :
  Js.truthy_opt token = true ->
  let s := Scrolling.load token records n in
  Tables.tables s = firstn (50 * (n + 1)) records
  /\ Tables.hasMore s = (50 * (n + 1) <=? length records)%nat
  /\ Tables.isLoadingMore s = false /\ Tables.loading s = false
  /\ ((length records < 50 * (n + 1))%nat ->
      Tables.tables s = records
      /\ Tables.step token s (Tables.Scroll true) = (s, [])).
Proof.
  intros Ht s.
  destruct (scroll_n_loaded token records n 0 _ Ht
              (mount_loaded token records Ht))
    as (Hmore & Hload & Htab & Hhas & _).
  fold (Scrolling.load token records n) in Hmore, Hload, Htab, Hhas.
  fold s in Hmore, Hload, Htab, Hhas. simpl in Htab, Hhas.
  repeat split; try assumption.
  - rewrite Htab. apply firstn_all2. lia.
  - simpl. unfold Tables.handleScroll. rewrite Hhas.
    rewrite (proj2 (Nat.leb_gt _ _)) by lia. reflexivity.
Qed.

Lemma infinite_scroll_loads_the_collection_witness :
  let table :=
    {| Tables.table_id := "t"; Tables.table_name := "notes";
       Tables.table_description := None; Tables.table_public := false;
       Tables.table_schema := [] |} in
  Js.truthy_opt (Some "token") = true
  /\ Tables.tables (Scrolling.load (Some "token") (repeat table 120) 2) =
     repeat table 120.
Proof.
  intros table. split; [reflexivity|].
  destruct (infinite_scroll_loads_the_collection (Some "token")
              (repeat table 120) 2 eq_refl) as (_ & _ & _ & _ & H).
  apply H. rewrite repeat_length. simpl. lia.
Defined.

End TablesLoad.

(** ** The row view of the table page *)
Section RowView.
Import Api.
Open Scope Z_scope.





End RowView.

(** ** The page controls of [DataTable] *)
Section DataTablePages.
Open Scope Z_scope.

(** X13. For a non-empty collection and every page the controls can show,
    the caption "Showing [from] to [to] of [totalRows]" names a non-empty
    range of at most [pageSize] rows inside [1..totalRows]; the ranges of
    consecutive pages follow each other without gap or overlap, the first
    starts at 1 and the last ends at [totalRows]. *)
Theorem showing_ranges_tile_the_rows (totalRows pageSize page : Z) :
  0 < pageSize -> 0 < totalRows ->
  1 <= page <= DataTable.totalPages totalRows pageSize ->
  let from := DataTable.showing_from page pageSize in
  let to := DataTable.showing_to page pageSize totalRows in
  1 <= from <= to /\ to <= totalRows /\ to - from + 1 <= pageSize
  /\ (page = 1 -> from = 1)
  /\ (page = DataTable.totalPages totalRows pageSize -> to = totalRows)
  /\ (page < DataTable.totalPages totalRows pageSize ->
      to - from + 1 = pageSize
      /\ DataTable.showing_from (page + 1) pageSize = to + 1).
Proof.
  intros Hp Hn Hpage.
  pose proof (ceil_div_bounds totalRows pageSize Hp) as B.
  fold (DataTable.totalPages totalRows pageSize) in B.
  unfold DataTable.showing_from, DataTable.showing_to.
  set (tp := DataTable.totalPages totalRows pageSize) in *.
  cbv zeta. repeat apply conj; nia.
Qed.

Lemma showing_ranges_tile_the_rows_witness :
  0 < 50 /\ 0 < 120 /\ 1 <= 3 <= DataTable.totalPages 120 50
  /\ DataTable.showing_from 3 50 = 101
  /\ DataTable.showing_to 3 50 120 = 120.
Proof.
  assert (H : 1 <= 3 <= DataTable.totalPages 120 50)
    by (vm_compute; split; discriminate).
  split; [lia|]. split; [lia|]. split; [exact H|].
  destruct (showing_ranges_tile_the_rows 120 50 3 ltac:(lia) ltac:(lia) H)
    as (_ & _ & _ & _ & Hlast & _).
  split; [reflexivity|]. apply Hlast. reflexivity.
Defined.

(** X14. For a positive page size: when the page controls of [DataTable]
    are shown, Next followed by Previous, and Previous followed by Next,
    come back to the page they started from unless the first click was on
    a disabled button; on the first page Previous does nothing and on the
    last page Next does nothing; with at most one page no sequence of
    clicks changes the page.  In infinite mode no sequence of clicks
    changes the page, whatever the page size. *)
Theorem page_buttons_round_trip (totalRows pageSize page : Z) :
  (0 < pageSize ->
   (1 <= page < DataTable.totalPages totalRows pageSize ->
    DataTable.navigate DataTable.pages totalRows pageSize page
      [DataTable.Next; DataTable.Previous] = page)
   /\ (1 < page <= DataTable.totalPages totalRows pageSize ->
       DataTable.navigate DataTable.pages totalRows pageSize page
         [DataTable.Previous; DataTable.Next] = page)
   /\ DataTable.click DataTable.pages totalRows pageSize 1
        DataTable.Previous = 1
   /\ DataTable.click DataTable.pages totalRows pageSize
        (DataTable.totalPages totalRows pageSize) DataTable.Next =
      DataTable.totalPages totalRows pageSize
   /\ (forall bs,
         totalRows <= pageSize ->
         DataTable.navigate DataTable.pages totalRows pageSize page bs
         = page))
  /\ (forall bs,
        DataTable.navigate DataTable.infinite totalRows pageSize page bs
        = page).
Proof.
  unfold DataTable.navigate, DataTable.click, DataTable.controls_rendered,
    DataTable.disabled, DataTable.previous_onClick, DataTable.next_onClick.
  split.
  - intros Hsize.
    pose proof (ceil_div_bounds totalRows pageSize Hsize) as B.
    fold (DataTable.totalPages totalRows pageSize) in B.
    set (tp := DataTable.totalPages totalRows pageSize) in *.
    repeat apply conj.
    + intros H. simpl.
      rewrite (proj2 (Z.ltb_lt 1 tp)) by lia.
      rewrite (proj2 (Z.leb_gt tp page)) by lia. simpl.
      rewrite (proj2 (Z.eqb_neq (Z.min tp (page + 1)) 1)) by lia.
      simpl. lia.
    + intros H. simpl.
      rewrite (proj2 (Z.ltb_lt 1 tp)) by lia.
      rewrite (proj2 (Z.eqb_neq page 1)) by lia. simpl.
      rewrite (proj2 (Z.leb_gt tp (Z.max 1 (page - 1)))) by lia.
      simpl. lia.
    + rewrite Z.eqb_refl, andb_false_r. reflexivity.
    + rewrite Z.leb_refl, andb_false_r. reflexivity.
    + intros bs H. rewrite (proj2 (Z.ltb_ge 1 tp)) by nia.
      induction bs as [|b bs IH]; simpl; [reflexivity | exact IH].
  - intros bs. induction bs as [|b bs IH]; simpl; [reflexivity | exact IH].
Qed.

Lemma page_buttons_round_trip_witness :
  0 < 50 /\ 1 <= 2 < DataTable.totalPages 120 50
  /\ DataTable.navigate DataTable.pages 120 50 2
       [DataTable.Next; DataTable.Previous] = 2.
Proof.
  assert (H : 1 <= 2 < DataTable.totalPages 120 50)
    by (vm_compute; split; [discriminate | reflexivity]).
  split; [lia|]. split; [exact H|].
  apply (proj1 (proj1 (page_buttons_round_trip 120 50 2) ltac:(lia)) H).
Defined.

End DataTablePages.

(** ** The user forms and the optional fields of the forms *)
Section UserForms.
Import Api.

Lemma trimStart_blank (s : string) :
  forallb Js.isWhiteSpace (list_ascii_of_string s) = true <->
  Js.trimStart s = "".
Proof.
  induction s as [|c r IH]; simpl.
  - tauto.
  - destruct (Js.isWhiteSpace c); simpl; [exact IH|].
    split; discriminate.
Qed.

Lemma trimEnd_keeps_head (c : ascii) (r : string) :
  Js.isWhiteSpace c = false -> Js.trimEnd (String c r) <> "".
Proof.
  intros Hc. simpl. rewrite Hc. destruct (Js.trimEnd r); discriminate.
Qed.

Lemma trimStart_head (s : string) :
  match Js.trimStart s with
  | EmptyString => True
  | String c _ => Js.isWhiteSpace c = false
  end.
Proof.
  induction s as [|c r IH]; simpl; [exact I|].
  destruct (Js.isWhiteSpace c) eqn:E; [exact IH | exact E].
Qed.

(** [trim] leaves nothing exactly of the strings made of white space. *)
Lemma trim_blank (s : string) :
  Js.trim s = "" <->
  forallb Js.isWhiteSpace (list_ascii_of_string s) = true.
Proof.
  rewrite trimStart_blank. unfold Js.trim. split.
  - intros H. pose proof (trimStart_head s) as Hh.
    destruct (Js.trimStart s) as [|c r]; [reflexivity|].
    exfalso. exact (trimEnd_keeps_head c r Hh H).
  - intros ->. reflexivity.
Qed.



Local Abbreviation optional :=
  (fun text : string =>
     if forallb Js.isWhiteSpace (list_ascii_of_string text) then None
     else Some (Js.trim text)).

Lemma or_null_stripName (text : string) :
  Js.or_null (Utils.stripName text) = optional text.
Proof.
  unfold Js.or_null, Js.truthy, Utils.stripName.
  destruct (forallb Js.isWhiteSpace (list_ascii_of_string text)) eqn:B.
  - apply trim_blank in B. rewrite B. reflexivity.
  - destruct (Js.trim text =? "") eqn:E; [|reflexivity].
    apply String.eqb_eq, trim_blank in E. congruence.
Qed.

(** X16. An optional text field that is left blank, that is empty or made
    of white space only, is sent as [null], and otherwise as its trimmed
    text: the e-mail and the names of the Edit User form, and the
    description of the Create Table and Edit Table forms.  The password
    of the Edit User form is sent as typed, and as [null] when empty. *)
Theorem blank_optional_fields_are_null :
  (forall selectedUser editForm user_id body,
     In (Users.updateUserUsersUserIdPatch user_id body)
        (Users.handleEditUser selectedUser editForm) ->
     Users.patch_email body = optional (Users.edit_email editForm)
     /\ Users.patch_firstName body = optional (Users.edit_firstName editForm)
     /\ Users.patch_lastName body = optional (Users.edit_lastName editForm)
     /\ Users.patch_password body =
        if Users.edit_password editForm =? "" then None
        else Some (Users.edit_password editForm))
  /\ (forall createForm body,
        In (send (createTableTablesPost body))
           (Tables.handleCreateTable createForm) ->
        create_description body =
        optional (Tables.form_description createForm))
  /\ (forall selectedTable editForm t body,
        In (send (updateTableTablesTableIdPatch t body))
           (Tables.handleEditTable selectedTable editForm) ->
        update_description body =
        optional (Tables.edit_description editForm)).
Proof.
  repeat apply conj.
  - intros selectedUser editForm uid body Hin.
    unfold Users.handleEditUser in Hin.
    destruct selectedUser as [u|]; [|destruct Hin].
    destruct Hin as [Hin|[]]. inversion Hin; subst; clear Hin.
    cbn [Users.patch_email Users.patch_firstName Users.patch_lastName
         Users.patch_password].
    rewrite !or_null_stripName. repeat split.
    unfold Js.or_null, Js.truthy.
    destruct (Users.edit_password editForm =? ""); reflexivity.
  - intros createForm body Hin. unfold Tables.handleCreateTable in Hin.
    destruct (negb (Js.truthy (Utils.stripName (Tables.form_name createForm))));
      [destruct Hin as [Hin|[]]; discriminate|].
    destruct (Tables.build_schema (Tables.form_columns createForm) []);
      destruct Hin as [Hin|[]]; [|discriminate].
    inversion Hin; subst; clear Hin. cbn [create_description].
    apply or_null_stripName.
  - intros selectedTable editForm t body Hin.
    unfold Tables.handleEditTable in Hin.
    destruct selectedTable as [table|]; [|destruct Hin].
    destruct (Js.truthy (Utils.stripName (Tables.edit_name editForm)));
      simpl in Hin; destruct Hin as [Hin|[]]; [|discriminate].
    inversion Hin; subst; clear Hin. cbn [update_description].
    apply or_null_stripName.
Qed.

Lemma blank_optional_fields_are_null_witness :
  let user := {| Users.user_id := "u1"; Users.user_email := "a@b.c" |} in
  let editForm :=
    {| Users.edit_email := " a@b.c"; Users.edit_firstName := "  ";
       Users.edit_lastName := ""; Users.edit_role := "USER";
       Users.edit_isActive := true; Users.edit_password := "" |} in
  let body :=
    {| Users.patch_email := Some "a@b.c"; Users.patch_firstName := None;
       Users.patch_lastName := None; Users.patch_role := "USER";
       Users.patch_isActive := true; Users.patch_password := None |} in
  In (Users.updateUserUsersUserIdPatch "u1" body)
     (Users.handleEditUser (Some user) editForm)
  /\ Users.patch_email body = Some "a@b.c"
  /\ Users.patch_firstName body = None.
Proof.
  intros user editForm body.
  assert (Hin : In (Users.updateUserUsersUserIdPatch "u1" body)
                  (Users.handleEditUser (Some user) editForm))
    by (left; reflexivity).
  split; [exact Hin|].
  destruct (proj1 blank_optional_fields_are_null (Some user) editForm "u1"
              body Hin) as (H1 & H2 & _).
  split; [exact H1 | exact H2].
Defined.

End UserForms.

(** ** Authentication state and route guards *)
Section AuthGuards.

Lemma auth_run_invariant (P : Auth.State -> Prop) :
  (forall s e, P s -> P (Auth.step s e)) ->
  forall es s, P s -> P (Auth.run s es).
Proof.
  intros Hstep es. unfold Auth.run.
  induction es as [|e es IH]; intros s Hs; simpl; [exact Hs|].
  apply IH, Hstep, Hs.
Qed.



(** X18. At start-up the guards show the loading screen until the stored
    token has been checked.  Without a stored token, or when the user
    lookup returns nothing or fails (the stored token is then removed),
    the guarded routes redirect to [/login]; when the lookup returns the
    user, they open, the admin route only for the role [ADMIN] and
    redirecting the other users to [/]. *)
Theorem startup_decides_the_guards (storedToken : option string) :
  Auth.RequireAuth (Auth.initial storedToken) = Auth.Loading
  /\ (Js.truthy_opt storedToken = false ->
      Auth.RequireAuth
        (Auth.run (Auth.initial storedToken) [Auth.InitStarted]) =
      Auth.Navigate "/login")
  /\ (Js.truthy_opt storedToken = true ->
      let s := Auth.run (Auth.initial storedToken) [Auth.InitStarted] in
      Auth.RequireAuth s = Auth.Loading /\ Auth.token s = storedToken
      /\ (forall r,
          match r with
          | Auth.me_data u =>
              let s' := Auth.step s (Auth.InitResolved r) in
              Auth.RequireAuth s' = Auth.Children
              /\ Auth.token s' = storedToken
              /\ Auth.RequireAdmin s' =
                 (if match Auth.role u with
                     | Some x => x =? "ADMIN"
                     | None => false
                     end
                  then Auth.Children else Auth.Navigate "/")
          | _ =>
              let s' := Auth.step s (Auth.InitResolved r) in
              Auth.RequireAuth s' = Auth.Navigate "/login"
              /\ Auth.RequireAdmin s' = Auth.Navigate "/login"
              /\ Auth.token s' = None /\ Auth.stored s' = None
          end)).
Proof.
  split; [reflexivity|]. split.
  - intros H. unfold Auth.run. simpl. rewrite H. reflexivity.
  - intros H. unfold Auth.run. simpl. rewrite H. cbv zeta.
    split; [reflexivity|]. split; [reflexivity|].
    intros [u| |]; simpl; repeat split.
    unfold Auth.RequireAdmin, Auth.is_admin. simpl.
    destruct (Auth.role u) as [x|]; [|reflexivity].
    destruct (x =? "ADMIN"); reflexivity.
Qed.

Lemma startup_decides_the_guards_witness :
  Js.truthy_opt (Some "jwt") = true
  /\ Auth.RequireAuth
       (Auth.run (Auth.initial (Some "jwt")) [Auth.InitStarted]) =
     Auth.Loading.
Proof.
  split; [reflexivity|].
  apply (proj2 (proj2 (startup_decides_the_guards (Some "jwt"))) eq_refl).
Defined.

(** X19. Through every sequence of start-up, login, refresh and logout
    events, the token held by the provider is either absent or the one
    kept in [localStorage]: pages never send a token that is not the
    stored one. *)
Theorem held_token_is_the_stored_token (storedToken : option string)
    (es : list Auth.event) :
  let s := Auth.run (Auth.initial storedToken) es in
  Auth.token s = None \/ Auth.token s = Auth.stored s.
Proof.
  apply (auth_run_invariant
           (fun s => Auth.token s = None \/ Auth.token s = Auth.stored s)).
  - intros s e H.
    destruct e as [|[u| |]|tok|[u| |]| |[u| |]]; simpl; auto.
    destruct (Js.truthy_opt (Auth.stored s)); simpl; auto.
  - left. reflexivity.
Qed.

End AuthGuards.

(** ** From the schema of a table to its Add Row form *)
Section SchemaColumns.

(** X20. The columns of the table page carry the keys of the schema, in
    order.  The Add Row form then starts with
    one empty field per schema key, except the keys that read [id] in any
    letter case and whose declared type contains [uuid], and except the
    key [__proto__], whose assignment stores no field. *)
Theorem add_row_fields_follow_the_schema
    (schema : Js.object (option TableDetail.SchemaDef)) :
  map TableDetail.col_name (TableDetail.columns_of_schema schema) =
  Js.keys schema
  /\ (forall k,
        In k (Js.keys
                (TableDetail.openAddRowModal
                   (TableDetail.columns_of_schema schema))) <->
        k <> "__proto__" /\
        exists def,
          In (k, def) schema
          /\ ~ (Js.toLowerCase k = "id"
                /\ exists d t,
                     def = Some d /\ TableDetail.def_type d = Some t
                     /\ Js.includes (Js.toLowerCase t) "uuid" = true))
  /\ (forall k v,
        In (k, v)
           (TableDetail.openAddRowModal
              (TableDetail.columns_of_schema schema)) ->
        v = Js.Str "").
Proof.
  repeat apply conj.
  - unfold TableDetail.columns_of_schema, Js.keys. rewrite map_map.
    reflexivity.
  - intros k. rewrite openAddRowModal_keys.
    unfold TableDetail.addRow_inputs, TableDetail.columns_of_schema. split.
    + intros (Hne & col & Hin & Hk). split; [exact Hne|].
      apply filter_In in Hin as [Hin Hid].
      apply in_map_iff in Hin as ([k0 def] & Hcol & Hin). subst col.
      simpl in Hk. subst k0. exists def. split; [exact Hin|].
      intros (Hlow & d & t & -> & Ht & Hu).
      unfold TableDetail.is_uuid_id in Hid. simpl in Hid.
      rewrite Ht, Hlow in Hid. simpl in Hid.
      destruct (Js.truthy t) eqn:T.
      * rewrite Hu in Hid. discriminate.
      * unfold Js.truthy in T. apply negb_false_iff in T.
        apply String.eqb_eq in T. subst t. discriminate.
    + intros (Hne & def & Hin & Hnot). split; [exact Hne|].
      eexists. split; [apply filter_In; split|].
      * apply in_map_iff. exists (k, def). split; [reflexivity | exact Hin].
      * apply negb_true_iff. unfold TableDetail.is_uuid_id. simpl.
        destruct (Js.toLowerCase k =? "id") eqn:E; [|reflexivity].
        apply String.eqb_eq in E. simpl.
        destruct def as [d|]; [|reflexivity].
        destruct (TableDetail.def_type d) as [t|] eqn:Ht; [|reflexivity].
        destruct (Js.truthy t); [|reflexivity].
        destruct (Js.includes (Js.toLowerCase t) "uuid") eqn:U;
          [|reflexivity].
        exfalso. apply Hnot. split; [exact E|].
        exists d, t. auto.
      * reflexivity.
  - intros k v Hin. unfold TableDetail.openAddRowModal in Hin.
    assert (G : forall l acc,
               (forall k0 v0, In (k0, v0) acc -> v0 = Js.Str "") ->
               forall k0 v0,
                 In (k0, v0)
                    (fold_left
                       (fun initialData col =>
                          if TableDetail.is_uuid_id col then initialData
                          else Js.set (TableDetail.col_name col) (Js.Str "")
                                 initialData) l acc) ->
                 v0 = Js.Str "").
    { induction l as [|c l IH]; intros acc Hacc k0 v0 H0; simpl in H0.
      - apply (Hacc k0 v0 H0).
      - apply (IH _) in H0; [exact H0|].
        intros k1 v1 H1. destruct (TableDetail.is_uuid_id c).
        + apply (Hacc k1 v1 H1).
        + apply in_set in H1. destruct H1 as [[_ ->]|H1];
            [reflexivity | apply (Hacc k1 v1 H1)]. }
    apply (G _ [] (fun _ _ H => match H with end) k v Hin).
Qed.

End SchemaColumns.
